(** * Commission Management System: commission totals, milestone progress,
      reward splitting and team recommendation

    A shallow embedding of the arithmetic and the store updates of
    - the Mongoose [Commission] schema (virtual [totalScore], [pre('save')]),
    - the Mongoose [Project] schema ([pre('save')] progress derivation),
    - [services/admin.service.js] and [controllers/admin.controller.js]
      ([calculateReward]),
    - the team and KPI helpers of [server/routes/ai.js].

    ** Numbers

    A JavaScript [Number] is an IEEE 754 binary64 value.  Amounts and scores
    are only added, multiplied, divided and compared by the code, so they are
    modelled by exact rationals ([Q], compared with [==]); equalities on them
    hold in the code up to the rounding of binary64.  The milestone progress
    is different: [Math.round] is applied to a binary64 product and is not
    continuous, so the last bit of that product decides the stored integer.
    Module [Project] therefore computes on the kernel's binary64 floats. *)

From Stdlib Require Import ZArith QArith List Bool Lia String.
From Stdlib Require Import Permutation Sorted Floats Lqa Qminmax.
From Stdlib Require Import Ascii DecimalString DecimalN DecimalPos.
Import ListNotations.

Local Open Scope Q_scope.

(** [length] is the length of a list throughout ([String] has its own). *)
Local Abbreviation length := Datatypes.length.

(* ================================================================== *)
(** * Part I: the embedding                                            *)
(* ================================================================== *)

(** ** models/Commission.js *)

Module Commission.

Inductive role_t : Type :=
| developer | designer | tester | analyst | lead | consultant.

Inductive status_t : Type :=
| draft | calculated | pending_approval | approved | paid | disputed.

Record performance_metrics : Type := mkPerformance {
  kpiScore : Q;
  qualityScore : Q;
  efficiencyScore : Q;
  teamworkScore : Q;
  innovationScore : Q
}.

Record project_metrics : Type := mkProjectMetrics {
  projectProgress : Q;
  projectProfit : Q;
  clientSatisfaction : Q;
  deadlineAdherence : Q
}.

Record ai_calculations : Type := mkAi {
  overallScore : Q;
  performanceBonus : Q;
  projectBonus : Q;
  qualityBonus : Q;
  innovationBonus : Q;
  totalBonus : Q;
  aiConfidence : Q
}.

Record manual_adjustments : Type := mkAdjust {
  adjustmentAmount : Q
}.

Record commission : Type := mkCommission {
  role : role_t;
  baseSalary : Q;
  performanceMetrics : performance_metrics;
  projectMetrics : project_metrics;
  aiCalculations : ai_calculations;
  manualAdjustments : manual_adjustments;
  finalAmount : Q;
  status : status_t
}.

(** Field assignments [this.finalAmount = v] and
    [this.aiCalculations.totalBonus = v]. *)
Definition set_finalAmount (v : Q) (d : commission) : commission :=
  mkCommission (role d) (baseSalary d) (performanceMetrics d)
    (projectMetrics d) (aiCalculations d) (manualAdjustments d) v (status d).

Definition set_totalBonus (v : Q) (d : commission) : commission :=
  let a := aiCalculations d in
  mkCommission (role d) (baseSalary d) (performanceMetrics d)
    (projectMetrics d)
    (mkAi (overallScore a) (performanceBonus a) (projectBonus a)
       (qualityBonus a) (innovationBonus a) v (aiConfidence a))
    (manualAdjustments d) (finalAmount d) (status d).

(** [commissionSchema.virtual('totalScore')]: the local [project] is read
    but not used. *)
Definition totalScore (d : commission) : Q :=
  let performance := performanceMetrics d in
  (kpiScore performance * 0.3) +
  (qualityScore performance * 0.2) +
  (efficiencyScore performance * 0.2) +
  (teamworkScore performance * 0.15) +
  (innovationScore performance * 0.15).

(** [commissionSchema.virtual('projectScore')]. *)
Definition projectScore (d : commission) : Q :=
  let project := projectMetrics d in
  (projectProgress project * 0.3) +
  (clientSatisfaction project * 0.3) +
  (deadlineAdherence project * 0.4).

(** [commissionSchema.pre('save')]: two assignments, in this order. *)
Definition pre_save (d : commission) : commission :=
  let d1 :=
    set_finalAmount
      (baseSalary d + totalBonus (aiCalculations d)
       + adjustmentAmount (manualAdjustments d)) d in
  set_totalBonus
    (performanceBonus (aiCalculations d1) +
     projectBonus (aiCalculations d1) +
     qualityBonus (aiCalculations d1) +
     innovationBonus (aiCalculations d1)) d1.

(** The invariant of the data model, as a decidable check of one
    document. *)
Definition totals_consistent (d : commission) : bool :=
  Qeq_bool (finalAmount d)
    (baseSalary d + totalBonus (aiCalculations d)
     + adjustmentAmount (manualAdjustments d)).

(** The developer row of the documented role table (KPI 25, quality 20,
    efficiency 20, teamwork 15, innovation 10, project progress 10), in
    the words of the specification; the schema has no such table. *)
Definition documented_developer_score (d : commission) : Q :=
  kpiScore (performanceMetrics d) * 0.25 +
  qualityScore (performanceMetrics d) * 0.2 +
  efficiencyScore (performanceMetrics d) * 0.2 +
  teamworkScore (performanceMetrics d) * 0.15 +
  innovationScore (performanceMetrics d) * 0.1 +
  projectProgress (projectMetrics d) * 0.1.

(** [this.role = r] and [this.projectMetrics = m]. *)
Definition set_role (r : role_t) (d : commission) : commission :=
  mkCommission r (baseSalary d) (performanceMetrics d) (projectMetrics d)
    (aiCalculations d) (manualAdjustments d) (finalAmount d) (status d).

Definition set_projectMetrics (m : project_metrics) (d : commission)
  : commission :=
  mkCommission (role d) (baseSalary d) (performanceMetrics d) m
    (aiCalculations d) (manualAdjustments d) (finalAmount d) (status d).

(** A commission as the calculation step hands it to its first save:
    salary 1000, a performance bonus of 100, the total bonus still at its
    schema default 0. *)
Definition first_save_example : commission :=
  mkCommission developer 1000
    (mkPerformance 80 80 80 80 80) (mkProjectMetrics 0 0 0 0)
    (mkAi 80 100 0 0 0 0 90) (mkAdjust 0) 1000 calculated.

(** A developer with KPI 100 and every other score 0. *)
Definition developer_kpi_only : commission :=
  mkCommission developer 1000
    (mkPerformance 100 0 0 0 0) (mkProjectMetrics 0 0 0 0)
    (mkAi 0 0 0 0 0 0 0) (mkAdjust 0) 1000 draft.

End Commission.

(** ** models/Project.js *)

Module Project.

Local Open Scope float_scope.

Record milestone : Type := mkMilestone {
  name : string;
  isCompleted : bool
}.

Record progress_t : Type := mkProgress {
  planned : float;
  actual : float
}.

Record project : Type := mkProject {
  code : string;
  milestones : list milestone;
  progress : progress_t
}.

(** An array length as a [Number]. *)
Definition of_nat (n : nat) : float :=
  PrimFloat.of_uint63 (Uint63.of_Z (Z.of_nat n)).

(** An integer of magnitude below [2^53] as a [Number] (exact). *)
Definition of_Z (z : Z) : float :=
  if (z <? 0)%Z then - PrimFloat.of_uint63 (Uint63.of_Z (- z))
  else PrimFloat.of_uint63 (Uint63.of_Z z).

(** [Math.round]: the integral value closest to [x], a tie going towards
    +infinity; NaN, the infinities and the zeros are returned as they are.
    A finite [x] is [(-1)^s * m * 2^e]; for [e < 0] the result is
    [floor (x + 1/2)], computed on integers, and [-0] when that is zero
    for a negative [x]. *)
Definition Math_round (x : float) : float :=
  match Prim2SF x with
  | S754_finite s m e =>
      if (0 <=? e)%Z then x
      else
        let v := if s then Z.neg m else Z.pos m in
        let z := ((2 * v + 2 ^ (- e)) / 2 ^ (1 - e))%Z in
        if (z =? 0)%Z then (if s then (-0) else 0) else of_Z z
  | _ => x
  end.

Definition set_actual (v : float) (p : project) : project :=
  mkProject (code p) (milestones p) (mkProgress (planned (progress p)) v).

(** [projectSchema.pre('save')]. *)
Definition pre_save (p : project) : project :=
  if (0 <? length (milestones p))%nat then
    let completedMilestones := length (filter isCompleted (milestones p)) in
    set_actual
      (Math_round
         ((of_nat completedMilestones / of_nat (length (milestones p))) * 100))
      p
  else p.

(** The percentage as specified, [round (100 * completed / total)], on
    exact integers: [floor (100 * c / n + 1/2)]. *)
Definition rounded_percentage (c n : nat) : Z :=
  ((200 * Z.of_nat c + Z.of_nat n) / (2 * Z.of_nat n))%Z.

(** The same formula, multiplying before dividing, on binary64. *)
Definition rounded_percentage_binary64 (c n : nat) : float :=
  Math_round (100 * of_nat c / of_nat n).

(** A project with [n] milestones of which the first [c] are completed. *)
Definition with_milestones (c n : nat) : project :=
  mkProject "PRJ001"
    (map (fun i => mkMilestone "m" (i <? c)%nat) (seq 0 n))
    (mkProgress 0 0).

(** Whether a save stores the exactly rounded percentage for [c] of [n]. *)
Definition stores_rounded_percentage (c n : nat) : bool :=
  PrimFloat.eqb (actual (progress (pre_save (with_milestones c n))))
    (of_Z (rounded_percentage c n)).

End Project.

(** ** The relational store behind [models], with writes that can fail *)

Module Store.

Inductive calculation_status : Type :=
| PRELIMINARY | PENDING_APPROVAL | APPROVED | PAID.

Record projects_row : Type := mkProjectRow {
  project_pk : Z;
  project_name : string
}.

Record project_members_row : Type := mkMemberRow {
  member_pk : Z;
  member_project_id : Z;
  user_id : Z
}.

Record reward_calculations_row : Type := mkCalculationRow {
  calculation_pk : Z;
  project_id : Z;
  reward_policy_id : Z;
  total_reward_pool : Q;
  status : calculation_status
}.

Record rewards_row : Type := mkRewardRow {
  reward_pk : Z;
  calculation_id : Z;
  reward_user_id : Z;
  amount : Q
}.

(** The tables, in insertion order, and the auto-increment counters. *)
Record db : Type := mkDb {
  projects : list projects_row;
  project_members : list project_members_row;
  reward_calculations : list reward_calculations_row;
  rewards : list rewards_row;
  next_calculation_pk : Z;
  next_reward_pk : Z
}.

(** The world of a request: the store, and what the database will answer
    to the coming writes ([Some msg]: the write is rejected with that
    message; [None], or an exhausted list: it is accepted). *)
Record world : Type := mkWorld {
  store : db;
  faults : list (option string)
}.

(** An awaited promise either resolves or rejects. *)
Inductive outcome (A : Type) : Type :=
| Resolved (a : A)
| Rejected (message : string).
Arguments Resolved {A} a.
Arguments Rejected {A} message.

(** Asynchronous code over the world.  No operation below restores the
    store when a later one rejects: there is no transaction. *)
Definition M (A : Type) : Type := world -> outcome A * world.

Definition ret {A : Type} (a : A) : M A := fun w => (Resolved a, w).

Definition bind {A B : Type} (m : M A) (k : A -> M B) : M B :=
  fun w =>
    match m w with
    | (Resolved a, w') => k a w'
    | (Rejected msg, w') => (Rejected msg, w')
    end.

(** [for (const x of xs) { await body(x) }]. *)
Fixpoint for_of {A B : Type} (xs : list A) (body : A -> M B) : M unit :=
  match xs with
  | [] => ret tt
  | x :: rest => bind (body x) (fun _ => for_of rest body)
  end.

(** The database's answer to the next write. *)
Definition next_fault : M (option string) :=
  fun w =>
    match faults w with
    | [] => (Resolved None, w)
    | f :: fs => (Resolved f, mkWorld (store w) fs)
    end.

Definition reject {A : Type} (msg : string) : M A :=
  fun w => (Rejected msg, w).

(** The [project_members] rows associated with project [pk]
    ([projects.hasMany(project_members, { foreignKey: "project_id" })]). *)
Definition members_of (d : db) (pk : Z) : list project_members_row :=
  filter (fun m => Z.eqb (member_project_id m) pk) (project_members d).

(** [models.projects.findByPk(pk, { include: project_members })]: the
    project with its member rows, or [null].  Reads are taken to succeed;
    only writes consult [faults]. *)
Definition projects_findByPk (pk : Z)
  : M (option (projects_row * list project_members_row)) :=
  fun w =>
    match find (fun p => Z.eqb (project_pk p) pk) (projects (store w)) with
    | None => (Resolved None, w)
    | Some p => (Resolved (Some (p, members_of (store w) pk)), w)
    end.

Definition insert_calculation
  (project_id reward_policy_id : Z) (pool : Q) (st : calculation_status)
  : M reward_calculations_row :=
  fun w =>
    let d := store w in
    let row := mkCalculationRow (next_calculation_pk d) project_id
                 reward_policy_id pool st in
    (Resolved row,
     mkWorld
       (mkDb (projects d) (project_members d)
          (reward_calculations d ++ [row]) (rewards d)
          (next_calculation_pk d + 1)%Z (next_reward_pk d))
       (faults w)).

Definition insert_reward (calculation_id user_id : Z) (amount : Q)
  : M rewards_row :=
  fun w =>
    let d := store w in
    let row := mkRewardRow (next_reward_pk d) calculation_id user_id amount in
    (Resolved row,
     mkWorld
       (mkDb (projects d) (project_members d) (reward_calculations d)
          (rewards d ++ [row]) (next_calculation_pk d)
          (next_reward_pk d + 1)%Z)
       (faults w)).

(** [models.reward_calculations.create(...)]. *)
Definition reward_calculations_create
  (project_id reward_policy_id : Z) (pool : Q) (st : calculation_status)
  : M reward_calculations_row :=
  bind next_fault (fun f =>
    match f with
    | Some msg => reject msg
    | None => insert_calculation project_id reward_policy_id pool st
    end).

(** [models.rewards.create(...)]. *)
Definition rewards_create (calculation_id user_id : Z) (amount : Q)
  : M rewards_row :=
  bind next_fault (fun f =>
    match f with
    | Some msg => reject msg
    | None => insert_reward calculation_id user_id amount
    end).

(** *** Vocabulary of the statements about the store *)

(** The database accepts the next [n] writes. *)
Definition all_accepted (n : nat) (fs : list (option string)) : bool :=
  forallb (fun f => match f with None => true | Some _ => false end)
    (firstn n fs).

(** The reward rows of one calculation for the members [ms], each with the
    same amount, numbered from [pk]. *)
Fixpoint shares (pk calculation : Z) (share : Q)
  (ms : list project_members_row) : list rewards_row :=
  match ms with
  | [] => []
  | m :: rest =>
      mkRewardRow pk calculation (user_id m) share
      :: shares (pk + 1)%Z calculation share rest
  end.

Definition sum_amounts (rows : list rewards_row) : Q :=
  fold_right (fun r acc => amount r + acc) 0 rows.

(** The store with [rows] appended to [rewards]. *)
Definition with_rewards (d : db) (rows : list rewards_row) : db :=
  mkDb (projects d) (project_members d) (reward_calculations d)
    (rewards d ++ rows) (next_calculation_pk d)
    (next_reward_pk d + Z.of_nat (length rows))%Z.

(** The store with one more calculation row. *)
Definition with_calculation (d : db) (row : reward_calculations_row) : db :=
  mkDb (projects d) (project_members d) (reward_calculations d ++ [row])
    (rewards d) (next_calculation_pk d + 1)%Z (next_reward_pk d).

(** A store with project 7 and its members: users 11, 12 and 13. *)
Definition three_member_store : db :=
  mkDb [mkProjectRow 7 "Portal"]
    [mkMemberRow 1 7 11; mkMemberRow 2 7 12; mkMemberRow 3 7 13]
    [] [] 1 1.

(** A store whose project 8 has no member yet. *)
Definition memberless_store : db :=
  mkDb [mkProjectRow 8 "Intranet"] [mkMemberRow 1 7 11] [] [] 1 1.

End Store.

Notation "x <- c ;; k" := (Store.bind c (fun x => k))
  (at level 61, c at next level, right associativity).

(** ** services/admin.service.js *)

Module AdminService.
Import Store.

(** [req.body]: [{ project_id, reward_policy_id, total_reward_pool }]. *)
Record data_t : Type := mkData {
  project_id : Z;
  reward_policy_id : Z;
  total_reward_pool : Q
}.

(** What the service resolves to: [{ error }] or
    [{ calculation_id, perMember }]. *)
Inductive result : Type :=
| Error (error : string)
| Calculated (calculation_id : Z) (perMember : Q).

(** [n || 1] on an array length. *)
Definition or_one (n : nat) : nat := if (n =? 0)%nat then 1%nat else n.

Definition calculateReward (data : data_t) : M result :=
  project <- projects_findByPk (project_id data) ;;
  match project with
  | None => ret (Error "Project not found")
  | Some (_, members) =>
      let perMember :=
        total_reward_pool data / inject_Z (Z.of_nat (or_one (length members))) in
      calculation <-
        reward_calculations_create (project_id data) (reward_policy_id data)
          (total_reward_pool data) PRELIMINARY ;;
      _ <- for_of members (fun m =>
             rewards_create (calculation_pk calculation) (user_id m) perMember) ;;
      ret (Calculated (calculation_pk calculation) perMember)
  end.

(** The row [calculateReward] asks the store to create. *)
Definition preliminary_row (data : data_t) (d : db) : reward_calculations_row :=
  mkCalculationRow (next_calculation_pk d) (project_id data)
    (reward_policy_id data) (total_reward_pool data) PRELIMINARY.

(** The amount [calculateReward] gives every member. *)
Definition perMember_of (data : data_t) (d : db) : Q :=
  total_reward_pool data
  / inject_Z (Z.of_nat (or_one (length (members_of d (project_id data))))).

End AdminService.

(** ** controllers/admin.controller.js *)

Module AdminController.
Import Store.

Inductive json_body : Type :=
| ServiceResult (r : AdminService.result)
| Failure (message error : string).

(** The response written on [res]; [res.json] alone answers 200. *)
Record response : Type := mkResponse {
  statusCode : nat;
  body : json_body
}.

Definition calculateReward (req_body : AdminService.data_t)
  : world -> response * world :=
  fun w =>
    match AdminService.calculateReward req_body w with
    | (Resolved result, w') => (mkResponse 200 (ServiceResult result), w')
    | (Rejected msg, w') =>
        (mkResponse 500 (Failure "Lỗi khi tính thưởng" msg), w')
    end.

End AdminController.

(** ** server/routes/ai.js: the team helpers *)

Module Ai.

(** [Array.prototype.sort(compare)]: stable; [compare a b > 0] puts [b]
    before [a].  Every comparator below is the difference of a key, for
    which the sorted array is determined by stability. *)
Fixpoint insert {A : Type} (compare : A -> A -> Q) (x : A) (l : list A)
  : list A :=
  match l with
  | [] => [x]
  | y :: rest =>
      if Qle_bool (compare x y) 0 then x :: l
      else y :: insert compare x rest
  end.

Definition sort {A : Type} (compare : A -> A -> Q) (l : list A) : list A :=
  fold_right (insert compare) [] l.

(** An array length as a [Number]. *)
Definition Number (n : nat) : Q := inject_Z (Z.of_nat n).

(** A PerformanceEvaluation row; [overallScore] may be null. *)
Record evaluation : Type := mkEvaluation {
  overallScore : option Q
}.

Record bonus : Type := mkBonus {
  totalBonus : Q
}.

Record user_t : Type := mkUser {
  id : string;
  department : option string;
  position : option string
}.

Record capabilities_t : Type := mkCapabilities {
  leadership : Q
}.

Record availability_t : Type := mkAvailability {
  currentWorkload : nat;
  isAvailable : bool
}.

(** An element of [userCapabilities]. *)
Record candidate : Type := mkCandidate {
  user : user_t;
  capabilities : capabilities_t;
  availability : availability_t;
  receivedEvaluations : list evaluation;
  bonuses : list bonus
}.

(** [x || 0]. *)
Definition or_zero (x : option Q) : Q :=
  match x with
  | Some v => v
  | None => 0
  end.

(** [evaluations.length > 0
      ? evaluations.reduce((sum, eval) => sum + (eval.overallScore || 0), 0)
        / evaluations.length
      : 6.0], which the source repeats in every comparator. *)
Definition averageScore (evaluations : list evaluation) : Q :=
  if (0 <? length evaluations)%nat then
    fold_left (fun sum eval => sum + or_zero (overallScore eval)) evaluations 0
    / Number (length evaluations)
  else 6.0.

(** [bonuses.length > 0
      ? bonuses.reduce((sum, b) => sum + b.totalBonus, 0) / bonuses.length
      : 0]. *)
Definition averageBonus (bonuses : list bonus) : Q :=
  if (0 <? length bonuses)%nat then
    fold_left (fun sum b => sum + totalBonus b) bonuses 0
    / Number (length bonuses)
  else 0.

Definition score_of (u : candidate) : Q := averageScore (receivedEvaluations u).
Definition bonus_of (u : candidate) : Q := averageBonus (bonuses u).

(** The comparator [(a, b) => bScore - aScore]. *)
Definition byScore (a b : candidate) : Q := score_of b - score_of a.

(** [selectedUsers.has(id)]. *)
Definition has (selectedUsers : list string) (i : string) : bool :=
  existsb (String.eqb i) selectedUsers.

Definition selectBalancedTeam (userCapabilities : list candidate)
  (requiredRoles : list string) (teamSize : nat) : list candidate :=
  let leaders :=
    sort (fun a b => leadership (capabilities b) - leadership (capabilities a))
      (filter (fun u => isAvailable (availability u)
                        && Qle_bool 7.0 (leadership (capabilities u)))
         userCapabilities) in
  let team := firstn 1 leaders in
  let selectedUsers := map (fun u => id (user u)) team in
  let seniors :=
    sort byScore
      (filter (fun u => Qle_bool 7.5 (score_of u))
         (filter (fun u => isAvailable (availability u)
                           && negb (has selectedUsers (id (user u))))
            userCapabilities)) in
  let seniorCount := Nat.min 2 (teamSize / 3) in
  let team := team ++ firstn seniorCount seniors in
  let selectedUsers := map (fun u => id (user u)) team in
  let juniors :=
    sort byScore
      (filter (fun u => isAvailable (availability u)
                        && negb (has selectedUsers (id (user u))))
         userCapabilities) in
  let remainingSlots := (teamSize - length team)%nat in
  team ++ firstn remainingSlots juniors.

Definition selectHighPerformanceTeam (userCapabilities : list candidate)
  (requiredRoles : list string) (teamSize : nat) : list candidate :=
  firstn teamSize
    (sort byScore
       (filter (fun u => isAvailable (availability u)) userCapabilities)).

(** The ratio is [score / (bonus + 1)]; an average bonus of exactly -1
    (a division by zero) is outside the model. *)
Definition selectCostEffectiveTeam (userCapabilities : list candidate)
  (requiredRoles : list string) (teamSize : nat) (budget : option Q)
  : list candidate :=
  firstn teamSize
    (sort (fun a b =>
             let bPerformanceRatio := score_of b / (bonus_of b + 1) in
             let aPerformanceRatio := score_of a / (bonus_of a + 1) in
             bPerformanceRatio - aPerformanceRatio)
       (filter (fun u => isAvailable (availability u)) userCapabilities)).

Definition key_eq_dec (x y : option string) : {x = y} + {x <> y}.
Proof. decide equality; apply string_dec. Defined.

(** [new Set(values).size]. *)
Definition Set_size (values : list (option string)) : nat :=
  length (nodup key_eq_dec values).

Definition calculateDiversityScore (team : list candidate) : Q :=
  if (length team =? 0)%nat then 0
  else
    let departments := Set_size (map (fun m => department (user m)) team) in
    let positions := Set_size (map (fun m => position (user m)) team) in
    (Number departments / Number (length team)) * 0.6
    + (Number positions / Number (length team)) * 0.4.

Definition calculateTeamScore (team : list candidate) : Q :=
  if (length team =? 0)%nat then 0
  else
    let avgPerformance :=
      if (0 <? length team)%nat then
        fold_left (fun sum member => sum + score_of member) team 0
        / Number (length team)
      else 0 in
    let avgBonus :=
      if (0 <? length team)%nat then
        fold_left (fun sum member => sum + bonus_of member) team 0
        / Number (length team)
      else 0 in
    let diversityScore := calculateDiversityScore team in
    avgPerformance * 0.5 + avgBonus * 0.3 + diversityScore * 0.2.

Inductive strategy_t : Type := balanced | high_performance | cost_effective.

Record recommendation : Type := mkRecommendation {
  strategy : strategy_t;
  team : list candidate;
  score : Q
}.

(** The three entries pushed by the handler, before they are sorted. *)
Definition strategies (userCapabilities : list candidate)
  (requiredRoles : list string) (teamSize : nat) (budget : option Q)
  : list recommendation :=
  let balancedTeam :=
    selectBalancedTeam userCapabilities requiredRoles teamSize in
  let highPerformanceTeam :=
    selectHighPerformanceTeam userCapabilities requiredRoles teamSize in
  let costEffectiveTeam :=
    selectCostEffectiveTeam userCapabilities requiredRoles teamSize budget in
  [ mkRecommendation balanced balancedTeam (calculateTeamScore balancedTeam);
    mkRecommendation high_performance highPerformanceTeam
      (calculateTeamScore highPerformanceTeam);
    mkRecommendation cost_effective costEffectiveTeam
      (calculateTeamScore costEffectiveTeam) ].

(** [teamRecommendations.sort((a, b) => b.score - a.score)]. *)
Definition teamRecommendations (userCapabilities : list candidate)
  (requiredRoles : list string) (teamSize : nat) (budget : option Q)
  : list recommendation :=
  sort (fun a b => score b - score a)
    (strategies userCapabilities requiredRoles teamSize budget).

(** [recommendedTeam: teamRecommendations[0]]. *)
Definition recommendedTeam (userCapabilities : list candidate)
  (requiredRoles : list string) (teamSize : nat) (budget : option Q)
  : option recommendation :=
  nth_error (teamRecommendations userCapabilities requiredRoles teamSize budget) 0.

(** *** Vocabulary of the statements about teams *)

Definition Qsum (l : list Q) : Q := fold_right Qplus 0 l.

(** [a] may stand before [b] in a ranking by descending [key]. *)
Definition descending {A : Type} (key : A -> Q) (a b : A) : Prop :=
  key b <= key a.


(** The team an entry of the given strategy carries. *)
Definition team_of (s : strategy_t) (userCapabilities : list candidate)
  (requiredRoles : list string) (teamSize : nat) (budget : option Q)
  : list candidate :=
  match s with
  | balanced => selectBalancedTeam userCapabilities requiredRoles teamSize
  | high_performance =>
      selectHighPerformanceTeam userCapabilities requiredRoles teamSize
  | cost_effective =>
      selectCostEffectiveTeam userCapabilities requiredRoles teamSize budget
  end.

End Ai.

(** ** models/Commission.js and models/Project.js: the other virtuals *)

Module CommissionVirtuals.
Import Commission.


(** The schema's [min: 0, max: 100] on every score. *)
Definition score_in_range (x : Q) : Prop := 0 <= x /\ x <= 100.

Definition performance_in_range (m : performance_metrics) : Prop :=
  score_in_range (kpiScore m) /\ score_in_range (qualityScore m) /\
  score_in_range (efficiencyScore m) /\ score_in_range (teamworkScore m) /\
  score_in_range (innovationScore m).

(** [m1] is at most [m2] in every performance score. *)
Definition performance_le (m1 m2 : performance_metrics) : Prop :=
  kpiScore m1 <= kpiScore m2 /\ qualityScore m1 <= qualityScore m2 /\
  efficiencyScore m1 <= efficiencyScore m2 /\
  teamworkScore m1 <= teamworkScore m2 /\
  innovationScore m1 <= innovationScore m2.

End CommissionVirtuals.

Module ProjectVirtuals.

(** The [budget] and [revenue] sub-documents, as far as the virtual reads
    them. *)
Record money_t : Type := mkMoney {
  planned : Q;
  actual : Q
}.

Record finance : Type := mkFinance {
  budget : money_t;
  revenue : money_t
}.

(** [projectSchema.virtual('profitMargin')]. *)
Definition profitMargin (p : finance) : Q :=
  if negb (Qle_bool (actual (revenue p)) 0) then
    ((actual (revenue p) - actual (budget p)) / actual (revenue p)) * 100
  else 0.

End ProjectVirtuals.

(** ** The store: integrity of its keys *)

Module StoreIntegrity.
Import Store.

(** Primary keys are unique and below the auto-increment counters, and
    every reward row refers to a calculation row of the store
    ([rewards.calculation_id] references [reward_calculations.id]). *)
Definition well_keyed (d : db) : Prop :=
  NoDup (map calculation_pk (reward_calculations d)) /\
  NoDup (map reward_pk (rewards d)) /\
  Forall (fun c => (calculation_pk c < next_calculation_pk d)%Z)
    (reward_calculations d) /\
  Forall (fun r => (reward_pk r < next_reward_pk d)%Z) (rewards d) /\
  Forall (fun r => In (calculation_id r)
                     (map calculation_pk (reward_calculations d)))
    (rewards d).

End StoreIntegrity.

(** ** Vocabulary and sample data for the team helpers *)

Module Teams.
Import Ai.

Definition available (u : candidate) : bool := isAvailable (availability u).

(** The user ids of a list of candidates. *)
Definition ids (l : list candidate) : list string :=
  map (fun u => id (user u)) l.


(** A candidate with the given id, department, position, availability,
    leadership, overall scores and bonuses. *)
Definition person (i dep pos : string) (free : bool) (lead : Q)
  (scores bonusList : list Q) : candidate :=
  mkCandidate (mkUser i (Some dep) (Some pos)) (mkCapabilities lead)
    (mkAvailability (if free then 0 else 3) free)
    (map (fun q => mkEvaluation (Some q)) scores) (map mkBonus bonusList).

Definition staff : list candidate :=
  [ person "an" "eng" "dev" true 8 [7; 8] [100];
    person "binh" "eng" "qa" true 6 [] [];
    person "chi" "ops" "dev" false 9 [10] [];
    person "dung" "ops" "dev" true 5 [9] [50; 150];
    person "em" "eng" "dev" true 7.5 [8; 7] [] ].

(** The same people before any bonus was approved. *)
Definition staff_without_bonuses : list candidate :=
  [ person "an" "eng" "dev" true 8 [7; 8] [];
    person "binh" "eng" "qa" true 6 [] [];
    person "chi" "ops" "dev" false 9 [10] [500];
    person "dung" "ops" "dev" true 5 [9] [];
    person "em" "eng" "dev" true 7.5 [8; 7] [] ].

(** Everybody already works on three projects. *)
Definition busy_staff : list candidate :=
  [ person "an" "eng" "dev" false 8 [7; 8] [100];
    person "chi" "ops" "dev" false 9 [10] [] ].

End Teams.

(** ** server/routes/ai.js: the KPI helpers *)

Module Kpi.

(** A JavaScript object used as a map: its own keys, in insertion
    order. *)
Definition object (V : Type) : Type := list (string * V).

(** [o[k]], [None] standing for [undefined]. *)
Definition get {V : Type} (o : object V) (k : string) : option V :=
  match find (fun kv => String.eqb (fst kv) k) o with
  | Some kv => Some (snd kv)
  | None => None
  end.

(** [x || d] on a number that may be [undefined]. *)
Definition or_default (x : option Q) (d : Q) : Q :=
  match x with
  | Some v => if Qeq_bool v 0 then d else v
  | None => d
  end.

Record kpi : Type := mkKpi {
  target : Q;
  weight : Q
}.

(** Categories of named KPIs. *)
Definition kpi_table : Type := object (object kpi).

(** The users of the KPI route, as far as the helpers read them.  An id
    that matches no user gives [null], on which the handler throws; such
    entries are outside the model. *)
Record member_t : Type := mkMember {
  memberId : string;
  receivedEvaluations : list Ai.evaluation;
  bonuses : list Ai.bonus
}.

Definition avgScore_of (member : member_t) : Q :=
  Ai.averageScore (receivedEvaluations member).

Definition getCapabilityLevel (score : Q) : string :=
  if Qle_bool 8.5 score then "expert"
  else if Qle_bool 7.5 score then "senior"
  else if Qle_bool 6.5 score then "intermediate"
  else "junior".

(** A row [{ easy, medium, hard }] of [multipliers]. *)
Record difficulty_row : Type := mkRow {
  easy : Q;
  medium : Q;
  hard : Q
}.

Definition row_get (row : difficulty_row) (k : string) : option Q :=
  if String.eqb k "easy" then Some (easy row)
  else if String.eqb k "medium" then Some (medium row)
  else if String.eqb k "hard" then Some (hard row)
  else None.

Definition multipliers : object difficulty_row :=
  [ ("expert", mkRow 1.1 1.0 0.9);
    ("senior", mkRow 1.0 0.95 0.85);
    ("intermediate", mkRow 0.9 0.85 0.75);
    ("junior", mkRow 0.8 0.75 0.65) ]%string.

Definition priorityMultipliers : object Q :=
  [ ("low", 0.9); ("medium", 1.0); ("high", 1.1); ("critical", 1.2) ]%string.

(** The two nested [forEach] loops: every target is multiplied, keys and
    weights stay. *)
Definition scale_targets (multiplier : Q) (t : kpi_table) : kpi_table :=
  map (fun category =>
         (fst category,
          map (fun k => (fst k, mkKpi (target (snd k) * multiplier)
                                  (weight (snd k))))
            (snd category)))
    t.

Definition adjustKPIsByLevel (baseKPIs : kpi_table) (level priority : string)
  : kpi_table :=
  let levelMultiplier :=
    match get multipliers level with
    | Some row => or_default (row_get row priority) (medium row)
    | None => 1.0
    end in
  let priorityMultiplier := or_default (get priorityMultipliers priority) 1.0 in
  let multiplier := levelMultiplier * priorityMultiplier in
  scale_targets multiplier baseKPIs.

(** [baseKPIs] of [generateKPIsForMember]. *)
Definition baseKPIs : kpi_table :=
  [ ("technical",
     [ ("codeQuality", mkKpi 8.5 0.3); ("bugRate", mkKpi 0.05 0.2);
       ("deliveryTime", mkKpi 0.9 0.25); ("documentation", mkKpi 8.0 0.15);
       ("testing", mkKpi 8.0 0.1) ]);
    ("soft",
     [ ("communication", mkKpi 8.0 0.3); ("teamwork", mkKpi 8.0 0.3);
       ("problemSolving", mkKpi 8.0 0.4) ]);
    ("project",
     [ ("milestoneCompletion", mkKpi 0.95 0.4);
       ("stakeholderSatisfaction", mkKpi 8.5 0.3);
       ("budgetAdherence", mkKpi 0.9 0.3) ]) ]%string.


Definition templates : object kpi_table :=
  [ ("development",
     [ ("technical",
        [ ("codeQuality", mkKpi 8.5 0.3); ("bugRate", mkKpi 0.05 0.2);
          ("deliveryTime", mkKpi 0.9 0.25); ("documentation", mkKpi 8.0 0.15);
          ("testing", mkKpi 8.0 0.1) ]);
       ("soft",
        [ ("communication", mkKpi 8.0 0.3); ("teamwork", mkKpi 8.0 0.3);
          ("problemSolving", mkKpi 8.0 0.4) ]) ]);
    ("design",
     [ ("technical",
        [ ("designQuality", mkKpi 8.5 0.4); ("creativity", mkKpi 8.0 0.3);
          ("userExperience", mkKpi 8.5 0.3) ]);
       ("soft",
        [ ("communication", mkKpi 8.0 0.4); ("creativity", mkKpi 8.5 0.3);
          ("collaboration", mkKpi 8.0 0.3) ]) ]);
    ("marketing",
     [ ("technical",
        [ ("campaignEffectiveness", mkKpi 8.0 0.4); ("reachTarget", mkKpi 0.9 0.3);
          ("conversionRate", mkKpi 0.05 0.3) ]);
       ("soft",
        [ ("communication", mkKpi 8.5 0.4); ("creativity", mkKpi 8.0 0.3);
          ("analytical", mkKpi 7.5 0.3) ]) ]) ]%string.

(** [templates[projectType] || templates.development]. *)
Definition generateKPITemplates (projectType complexity : string) : kpi_table :=
  match get templates projectType with
  | Some t => t
  | None =>
      match get templates "development" with
      | Some t => t
      | None => []
      end
  end.

Definition levelMultipliers : object Q :=
  [ ("expert", 1.1); ("senior", 1.0); ("intermediate", 0.9); ("junior", 0.8) ]%string.

(** [member] and [avgBonus] are passed by the handler and not read. *)
Definition adjustKPIsByCapability (templates : kpi_table) (avgScore : Q)
  : kpi_table :=
  let capabilityLevel := getCapabilityLevel avgScore in
  let multiplier := or_default (get levelMultipliers capabilityLevel) 1.0 in
  scale_targets multiplier templates.

Definition complexityMultipliers : object Q :=
  [ ("simple", 0.9); ("moderate", 1.0); ("complex", 1.1); ("very_complex", 1.2) ]%string.

(** [project], [teamSize] and [projectType] are not read. *)
Definition generateProjectKPIs (complexity : string) : kpi_table :=
  let multiplier := or_default (get complexityMultipliers complexity) 1.0 in
  [ ("timeline",
     [ ("onTimeDelivery", mkKpi (0.95 * multiplier) 0.3);
       ("milestoneCompletion", mkKpi (0.9 * multiplier) 0.3);
       ("qualityGates", mkKpi (0.95 * multiplier) 0.4) ]);
    ("quality",
     [ ("defectRate", mkKpi (0.05 / multiplier) 0.3);
       ("customerSatisfaction", mkKpi (8.5 * multiplier) 0.4);
       ("codeReview", mkKpi (0.9 * multiplier) 0.3) ]);
    ("efficiency",
     [ ("budgetAdherence", mkKpi (0.95 * multiplier) 0.4);
       ("resourceUtilization", mkKpi (0.85 * multiplier) 0.3);
       ("teamProductivity", mkKpi (0.9 * multiplier) 0.3) ]) ]%string.




(** The mean score of the members, as the two functions below compute
    it. *)
Definition teamAverage (members : list member_t) : Q :=
  fold_left (fun sum m => sum + avgScore_of m) members 0
  / Ai.Number (length members).


Definition identifyRiskFactors (members : list member_t)
  (projectType complexity : string) : list string :=
  if (length members =? 0)%nat then []
  else
    let avgScore := teamAverage members in
    let risks1 :=
      if negb (Qle_bool 7.0 avgScore) then ["Hiệu suất team thấp"%string] else [] in
    let juniorCount :=
      length (filter (fun m => String.eqb (getCapabilityLevel (avgScore_of m)) "junior")
                members) in
    let risks2 :=
      if (0 <? length members)%nat
         && negb (Qle_bool (Ai.Number juniorCount) (Ai.Number (length members) * 0.5))
      then ["Quá nhiều junior trong team"%string] else [] in
    let risks3 :=
      if String.eqb complexity "very_complex" && negb (Qle_bool 8.0 avgScore)
      then ["Dự án phức tạp với team chưa đủ kinh nghiệm"%string] else [] in
    risks1 ++ risks2 ++ risks3.

(** *** Vocabulary of the statements about KPIs *)

(** Every category's weights add up to 1. *)
Definition weights_normalised (t : kpi_table) : Prop :=
  Forall (fun category => Ai.Qsum (map (fun k => weight (snd k)) (snd category)) == 1) t.


(** Category and KPI names with their weights. *)
Definition shape (t : kpi_table) : list (string * list (string * Q)) :=
  map (fun category =>
         (fst category, map (fun k => (fst k, weight (snd k))) (snd category)))
    t.



Definition newcomer (i : string) : member_t := mkMember i [] [].

Definition veteran (i : string) : member_t :=
  mkMember i [Ai.mkEvaluation (Some 9); Ai.mkEvaluation (Some 8.5)] [].

End Kpi.

(** ** models/Commission.js: the period string *)

Module Period.

Local Open Scope string_scope.







End Period.

(* ================================================================== *)
(** * Part II: properties                                              *)
(* ================================================================== *)

(** ** Commission: totals written by a save *)

Section CommissionSave.
Import Commission.

(** A save touches the two totals and nothing else. *)
Lemma pre_save_keeps_inputs (d : commission) :
  role (pre_save d) = role d /\
  baseSalary (pre_save d) = baseSalary d /\
  performanceMetrics (pre_save d) = performanceMetrics d /\
  projectMetrics (pre_save d) = projectMetrics d /\
  manualAdjustments (pre_save d) = manualAdjustments d /\
  status (pre_save d) = status d.
Proof. repeat split. Qed.

Lemma pre_save_keeps_components (d : commission) :
  performanceBonus (aiCalculations (pre_save d))
    = performanceBonus (aiCalculations d) /\
  projectBonus (aiCalculations (pre_save d))
    = projectBonus (aiCalculations d) /\
  qualityBonus (aiCalculations (pre_save d))
    = qualityBonus (aiCalculations d) /\
  innovationBonus (aiCalculations (pre_save d))
    = innovationBonus (aiCalculations d).
Proof. repeat split. Qed.

(** The amount a save stores is built from the total bonus the document
    held before that save. *)
Lemma pre_save_finalAmount (d : commission) :
  finalAmount (pre_save d)
  = baseSalary d + totalBonus (aiCalculations d)
    + adjustmentAmount (manualAdjustments d).
Proof. reflexivity. Qed.

(** C3: the total bonus stored by a save is the sum of the four bonus
    components of the saved document, whatever total the document held
    before: it is recomputed, not maintained. *)
Theorem pre_save_totalBonus_recomputed (d : commission) :
  let s := pre_save d in
  totalBonus (aiCalculations s)
  = performanceBonus (aiCalculations s) + projectBonus (aiCalculations s)
    + qualityBonus (aiCalculations s) + innovationBonus (aiCalculations s)
  /\ totalBonus (aiCalculations s)
     = performanceBonus (aiCalculations d) + projectBonus (aiCalculations d)
       + qualityBonus (aiCalculations d) + innovationBonus (aiCalculations d)
  /\ forall stale : Q,
       totalBonus (aiCalculations (pre_save (set_totalBonus stale d)))
       = totalBonus (aiCalculations s).
Proof.
  cbv zeta. split; [| split]; [reflexivity | reflexivity |].
  intro stale. destruct d as [r b pm pj a m f st]. destruct a. reflexivity.
Qed.

(** A save leaves the totals consistent exactly when the total bonus was
    already up to date before it. *)
Lemma pre_save_consistent_iff (d : commission) :
  totals_consistent (pre_save d) = true <->
  totalBonus (aiCalculations d)
  == performanceBonus (aiCalculations d) + projectBonus (aiCalculations d)
     + qualityBonus (aiCalculations d) + innovationBonus (aiCalculations d).
Proof.
  unfold totals_consistent. rewrite Qeq_bool_iff.
  destruct d as [r b pm pj a m f st]. destruct a as [o pb jb qb ib tb c].
  destruct m as [adj]. cbn.
  split; intro H.
  - assert (E : tb == (b + tb + adj) - b - adj) by ring.
    rewrite E, H. ring.
  - rewrite H. reflexivity.
Qed.

(** Saving once more, with no edit in between, repairs the amount. *)
Lemma pre_save_twice_consistent (d : commission) :
  totals_consistent (pre_save (pre_save d)) = true.
Proof. apply pre_save_consistent_iff. reflexivity. Qed.

(** C1 at that document: the save stores total bonus 100 and amount 1000,
    while salary + stored total bonus + adjustment is 1100. *)
Theorem pre_save_finalAmount_stale_totalBonus :
  let s := pre_save first_save_example in
  totalBonus (aiCalculations s) == 100 /\
  finalAmount s == 1000 /\
  baseSalary s + totalBonus (aiCalculations s)
    + adjustmentAmount (manualAdjustments s) == 1100 /\
  totals_consistent s = false.
Proof. cbv zeta. repeat split. Qed.

End CommissionSave.

(** ** Commission: the performance score *)

Section CommissionScore.
Import Commission.

(** C4 as stated fails: a developer with KPI 100 and every other score 0
    has total score 30, not the 25 of the documented developer row. *)
Lemma totalScore_not_documented_developer_row :
  role developer_kpi_only = developer /\
  totalScore developer_kpi_only == 30 /\
  documented_developer_score developer_kpi_only == 25 /\
  ~ totalScore developer_kpi_only
    == documented_developer_score developer_kpi_only.
Proof.
  repeat split. intro H. vm_compute in H. discriminate H.
Qed.

(** C4 amended: for every commission the total score is the weighted sum
    of the five performance scores with weights 30, 20, 20, 15 and 15 per
    cent, which add up to 1; neither the role nor the project metrics
    (project progress included) enter it. *)
Theorem totalScore_fixed_weights (d : commission) :
  totalScore d
  == (30 * kpiScore (performanceMetrics d)
      + 20 * qualityScore (performanceMetrics d)
      + 20 * efficiencyScore (performanceMetrics d)
      + 15 * teamworkScore (performanceMetrics d)
      + 15 * innovationScore (performanceMetrics d)) / 100
  /\ 0.3 + 0.2 + 0.2 + 0.15 + 0.15 == 1
  /\ (forall r : role_t, totalScore (set_role r d) = totalScore d)
  /\ (forall m : project_metrics,
        totalScore (set_projectMetrics m d) = totalScore d).
Proof.
  split; [| split; [| split]].
  - unfold totalScore. cbv zeta. field.
  - reflexivity.
  - intro r. reflexivity.
  - intro m. reflexivity.
Qed.

End CommissionScore.

(** ** Project: progress derived by a save *)

Section ProjectSave.
Import Project.

Lemma pre_save_without_milestones (p : project) :
  milestones p = [] -> pre_save p = p.
Proof. intro E. unfold pre_save. rewrite E. reflexivity. Qed.

(** With a milestone, a save stores [Math.round] of the binary64 product
    [(completed / total) * 100], the quotient being rounded first. *)
Lemma pre_save_progress (p : project) :
  milestones p <> [] ->
  actual (progress (pre_save p))
  = Math_round
      ((of_nat (length (filter isCompleted (milestones p)))
        / of_nat (length (milestones p))) * 100)%float.
Proof.
  intro NE. unfold pre_save.
  destruct (milestones p) as [| m ms] eqn:E; [contradiction |].
  reflexivity.
Qed.

Lemma with_milestones_counts (c n : nat) :
  (c <= n)%nat ->
  length (milestones (with_milestones c n)) = n /\
  length (filter isCompleted (milestones (with_milestones c n))) = c.
Proof.
  intro Hc. unfold with_milestones. cbn [milestones].
  split.
  - rewrite length_map, length_seq. reflexivity.
  - replace n with (c + (n - c))%nat by lia.
    rewrite seq_app, map_app, filter_app, length_app.
    assert (A : forall k, (k <= c)%nat ->
              length (filter isCompleted
                (map (fun i => mkMilestone "m" (i <? c)%nat) (seq (c - k) k))) = k).
    { induction k as [| k IH]; intro Hk; [reflexivity |].
      cbn [seq map filter isCompleted].
      destruct (Nat.ltb_spec (c - S k) c) as [_ | Hge]; [| lia].
      cbn [length]. f_equal.
      replace (S (c - S k)) with (c - k)%nat by lia. apply IH. lia. }
    assert (B : forall k s, (c <= s)%nat ->
              length (filter isCompleted
                (map (fun i => mkMilestone "m" (i <? c)%nat) (seq s k))) = 0%nat).
    { induction k as [| k IH]; intros s Hs; [reflexivity |].
      cbn [seq map filter isCompleted].
      destruct (Nat.ltb_spec s c) as [Hlt | _]; [lia |].
      apply IH. lia. }
    specialize (A c (Nat.le_refl c)). rewrite Nat.sub_diag in A.
    rewrite A, (B (n - c)%nat (0 + c)%nat) by lia. lia.
Qed.

(** Up to 39 milestones the stored progress is the exactly rounded
    percentage, whatever the number of completed ones. *)
Lemma pre_save_progress_exact_below_40 (c n : nat) :
  (1 <= n < 40)%nat -> (c <= n)%nat ->
  stores_rounded_percentage c n = true.
Proof.
  intros Hn Hc.
  assert (A : forallb (fun n' =>
                forallb (fun c' => stores_rounded_percentage c' n')
                  (seq 0 (S n'))) (seq 1 39) = true)
    by (vm_compute; reflexivity).
  rewrite forallb_forall in A.
  specialize (A n). rewrite in_seq in A.
  assert (A' := A ltac:(lia)). rewrite forallb_forall in A'.
  apply A'. apply in_seq. lia.
Qed.

(** C6 at 23 completed milestones of 40: the quotient 23/40 is rounded to
    the binary64 just below 0.575, its product with 100 is
    57.49999999999999, and the save stores 57; the rounded percentage
    [round (100 * 23 / 40)] is 58, on exact integers as on binary64. *)
Theorem pre_save_progress_23_of_40 :
  let p := with_milestones 23 40 in
  length (milestones p) = 40%nat /\
  length (filter isCompleted (milestones p)) = 23%nat /\
  (PrimFloat.ltb (of_nat 23 / of_nat 40 * 100) 57.5 = true) /\
  actual (progress (pre_save p)) = 57%float /\
  rounded_percentage 23 40 = 58%Z /\
  rounded_percentage_binary64 23 40 = 58%float.
Proof.
  cbv zeta. repeat split; vm_compute; reflexivity.
Qed.

End ProjectSave.

(** ** Store: what a run of reward writes leaves behind *)

Section StoreRuns.
Import Store.

Lemma all_accepted_nil (n : nat) : all_accepted n [] = true.
Proof. unfold all_accepted. rewrite firstn_nil. reflexivity. Qed.

Lemma all_accepted_cons (n : nat) (f : option string) (fs : list (option string)) :
  all_accepted (S n) (f :: fs) = true ->
  f = None /\ all_accepted n fs = true.
Proof.
  unfold all_accepted. cbn [firstn forallb].
  destruct f as [msg |]; [discriminate | auto].
Qed.

Lemma with_rewards_nil (d : db) : with_rewards d [] = d.
Proof.
  destruct d. unfold with_rewards. cbn.
  rewrite app_nil_r, Z.add_0_r. reflexivity.
Qed.

Lemma with_rewards_cons (d : db) (r : rewards_row) (rows : list rewards_row) :
  with_rewards (with_rewards d [r]) rows = with_rewards d (r :: rows).
Proof.
  destruct d. unfold with_rewards. cbn [projects project_members
    reward_calculations rewards next_calculation_pk next_reward_pk length].
  f_equal.
  - rewrite <- app_assoc. reflexivity.
  - lia.
Qed.

(** One accepted [rewards.create]. *)
Lemma rewards_create_accepted (c u : Z) (a : Q) (d : db)
  (fs : list (option string)) :
  all_accepted 1 fs = true ->
  rewards_create c u a (mkWorld d fs)
  = (Resolved (mkRewardRow (next_reward_pk d) c u a),
     mkWorld (with_rewards d [mkRewardRow (next_reward_pk d) c u a])
       (skipn 1 fs)).
Proof.
  intro H. destruct fs as [| f fs].
  - reflexivity.
  - apply all_accepted_cons in H. destruct H as [-> _]. reflexivity.
Qed.

(** One rejected [rewards.create]: the store is as before. *)
Lemma rewards_create_rejected (c u : Z) (a : Q) (d : db) (msg : string)
  (fs : list (option string)) :
  rewards_create c u a (mkWorld d (Some msg :: fs))
  = (Rejected msg, mkWorld d fs).
Proof. reflexivity. Qed.

(** The loop over the members when every write is accepted. *)
Lemma for_of_rewards_accepted (c : Z) (a : Q) (ms : list project_members_row) :
  forall (d : db) (fs : list (option string)),
    all_accepted (length ms) fs = true ->
    for_of ms (fun m => rewards_create c (user_id m) a) (mkWorld d fs)
    = (Resolved tt,
       mkWorld (with_rewards d (shares (next_reward_pk d) c a ms))
         (skipn (length ms) fs)).
Proof.
  induction ms as [| m rest IH]; intros d fs H.
  - cbn. rewrite with_rewards_nil. reflexivity.
  - cbn [for_of]. unfold bind at 1.
    assert (H1 : all_accepted 1 fs = true /\
                 all_accepted (length rest) (skipn 1 fs) = true).
    { destruct fs as [| f fs]; [split; apply all_accepted_nil |].
      apply all_accepted_cons in H. destruct H as [-> H]. split; [reflexivity | exact H]. }
    destruct H1 as [H1 H2].
    rewrite (rewards_create_accepted _ _ _ _ _ H1).
    rewrite (IH _ _ H2). cbn [shares length].
    change (next_reward_pk (with_rewards d [mkRewardRow (next_reward_pk d) c (user_id m) a]))
      with (next_reward_pk d + 1)%Z.
    rewrite with_rewards_cons, skipn_skipn, Nat.add_1_r. reflexivity.
Qed.

(** The loop when the write for member number [j] (from 0) is the first
    rejected one: the [j] rows written before it stay. *)
Lemma for_of_rewards_rejected (c : Z) (a : Q) (msg : string)
  (ms : list project_members_row) :
  forall (j : nat) (d : db) (fs : list (option string)),
    (j < length ms)%nat ->
    all_accepted j fs = true ->
    nth_error fs j = Some (Some msg) ->
    for_of ms (fun m => rewards_create c (user_id m) a) (mkWorld d fs)
    = (Rejected msg,
       mkWorld (with_rewards d (shares (next_reward_pk d) c a (firstn j ms)))
         (skipn (S j) fs)).
Proof.
  induction ms as [| m rest IH]; intros j d fs Hj Hacc Hnth.
  - cbn in Hj. lia.
  - destruct fs as [| f fs]; [destruct j; discriminate Hnth |].
    destruct j as [| j].
    + cbn in Hnth. injection Hnth as ->.
      cbn [for_of firstn shares skipn]. unfold bind at 1.
      rewrite rewards_create_rejected, with_rewards_nil. reflexivity.
    + apply all_accepted_cons in Hacc. destruct Hacc as [-> Hacc].
      cbn [for_of]. unfold bind at 1.
      rewrite (rewards_create_accepted _ _ _ _ (None :: fs) eq_refl).
      cbn [skipn nth_error] in *.
      rewrite (IH j _ fs ltac:(cbn in Hj; lia) Hacc Hnth).
      cbn [firstn shares].
      change (next_reward_pk (with_rewards d [mkRewardRow (next_reward_pk d) c (user_id m) a]))
        with (next_reward_pk d + 1)%Z.
      rewrite with_rewards_cons. reflexivity.
Qed.

Lemma shares_length (pk c : Z) (a : Q) (ms : list project_members_row) :
  length (shares pk c a ms) = length ms.
Proof.
  revert pk. induction ms as [| m rest IH]; intro pk; cbn; [| rewrite IH]; reflexivity.
Qed.

Lemma shares_users (pk c : Z) (a : Q) (ms : list project_members_row) :
  map reward_user_id (shares pk c a ms) = map user_id ms.
Proof.
  revert pk. induction ms as [| m rest IH]; intro pk; cbn; [| rewrite IH]; reflexivity.
Qed.

Lemma shares_uniform (pk c : Z) (a : Q) (ms : list project_members_row) :
  Forall (fun r => amount r = a /\ calculation_id r = c) (shares pk c a ms).
Proof.
  revert pk. induction ms as [| m rest IH]; intro pk; cbn; constructor; auto.
Qed.

Lemma shares_sum (pk c : Z) (a : Q) (ms : list project_members_row) :
  sum_amounts (shares pk c a ms) == inject_Z (Z.of_nat (length ms)) * a.
Proof.
  revert pk. induction ms as [| m rest IH]; intro pk.
  - cbn. ring.
  - cbn [shares sum_amounts fold_right amount length].
    fold (sum_amounts (shares (pk + 1) c a rest)). rewrite IH.
    rewrite Nat2Z.inj_succ. unfold Z.succ. rewrite inject_Z_plus. ring.
Qed.

End StoreRuns.

(** ** calculateReward *)

Section RewardCalculation.
Import Store AdminService.

Lemma all_accepted_split (n : nat) (fs : list (option string)) :
  all_accepted (S n) fs = true ->
  all_accepted 1 fs = true /\ all_accepted n (skipn 1 fs) = true.
Proof.
  destruct fs as [| f fs]; intro H.
  - split; apply all_accepted_nil.
  - apply all_accepted_cons in H. destruct H as [-> H]. split; [reflexivity | exact H].
Qed.

Lemma nth_error_skip1 (fs : list (option string)) (j : nat) :
  nth_error fs (S j) = nth_error (skipn 1 fs) j.
Proof. destruct fs; [destruct j |]; reflexivity. Qed.

Lemma or_one_positive (n : nat) : (1 <= n)%nat -> or_one n = n.
Proof. intro H. unfold or_one. destruct n; [lia | reflexivity]. Qed.

Lemma or_one_nonzero (n : nat) : or_one n <> 0%nat.
Proof. unfold or_one. destruct n; cbn; lia. Qed.

(** Once the project is found and the calculation row is written, the
    request ends as the loop over the members ends. *)
Lemma calculateReward_run (data : data_t) (d : db) (fs : list (option string))
  (p : projects_row) :
  find (fun p => Z.eqb (project_pk p) (project_id data)) (projects d) = Some p ->
  all_accepted 1 fs = true ->
  calculateReward data (mkWorld d fs)
  = match
      for_of (members_of d (project_id data))
        (fun m => rewards_create (next_calculation_pk d) (user_id m)
                    (perMember_of data d))
        (mkWorld (with_calculation d (preliminary_row data d)) (skipn 1 fs))
    with
    | (Resolved _, w') =>
        (Resolved (Calculated (next_calculation_pk d) (perMember_of data d)), w')
    | (Rejected msg, w') => (Rejected msg, w')
    end.
Proof.
  intros Hp Hacc. unfold calculateReward, bind, projects_findByPk.
  cbn [store]. rewrite Hp.
  unfold reward_calculations_create, bind.
  destruct fs as [| f fs].
  - reflexivity.
  - apply all_accepted_cons in Hacc. destruct Hacc as [-> _]. reflexivity.
Qed.

(** C10: when no project has the requested key, the service resolves to
    [{ error: 'Project not found' }] and the world is the one it started
    from (no row is written, no write is even attempted); the controller
    sends that object with status 200. *)
Theorem calculateReward_project_not_found (data : data_t) (w : world) :
  find (fun p => Z.eqb (project_pk p) (project_id data)) (projects (store w))
  = None ->
  calculateReward data w = (Resolved (Error "Project not found"), w) /\
  AdminController.calculateReward data w
  = (AdminController.mkResponse 200
       (AdminController.ServiceResult (Error "Project not found")), w).
Proof.
  intro Hp.
  assert (E : calculateReward data w = (Resolved (Error "Project not found"), w)).
  { unfold calculateReward, bind, projects_findByPk. rewrite Hp. reflexivity. }
  split; [exact E |].
  unfold AdminController.calculateReward. rewrite E. reflexivity.
Qed.

(** No project has key 99: the answer is 200 with the error object, and
    the store and the pending fault are untouched. *)
Lemma calculateReward_unknown_project_99 :
  let data := mkData 99 1 900000 in
  let w := mkWorld three_member_store [Some "down"%string] in
  calculateReward data w = (Resolved (Error "Project not found"), w) /\
  AdminController.statusCode (fst (AdminController.calculateReward data w))
  = 200%nat /\
  store (snd (AdminController.calculateReward data w)) = three_member_store.
Proof.
  cbv zeta.
  destruct (calculateReward_project_not_found (mkData 99 1 900000)
              (mkWorld three_member_store [Some "down"%string]) eq_refl)
    as [E1 E2].
  split; [exact E1 |]. rewrite E2. split; reflexivity.
Defined.

(** C2: for an existing project with [n >= 1] members, when the store
    accepts the [1 + n] writes, [calculateReward] resolves to the new
    calculation and the share [pool / n], and appends exactly one reward
    row per member, in member order, each for that calculation and with
    that share; the shares add up to the pool. *)
Theorem calculateReward_equal_split (data : data_t) (w : world)
  (p : projects_row) :
  let ms := members_of (store w) (project_id data) in
  let n := length ms in
  let share := total_reward_pool data / inject_Z (Z.of_nat n) in
  let calculation := next_calculation_pk (store w) in
  let created := shares (next_reward_pk (store w)) calculation share ms in
  find (fun p => Z.eqb (project_pk p) (project_id data)) (projects (store w))
  = Some p ->
  (1 <= n)%nat ->
  all_accepted (S n) (faults w) = true ->
  fst (calculateReward data w) = Resolved (Calculated calculation share) /\
  rewards (store (snd (calculateReward data w)))
  = rewards (store w) ++ created /\
  length created = n /\
  map reward_user_id created = map user_id ms /\
  Forall (fun r => amount r = share /\ calculation_id r = calculation) created /\
  sum_amounts created == total_reward_pool data.
Proof.
  intros ms n share calculation created Hp Hn Hacc.
  destruct w as [d fs]. cbn [store faults] in *.
  apply all_accepted_split in Hacc. destruct Hacc as [H1 Hrest].
  rewrite (calculateReward_run data d fs p Hp H1).
  assert (Eshare : perMember_of data d = share).
  { unfold perMember_of. fold ms. fold n. rewrite (or_one_positive n Hn). reflexivity. }
  rewrite Eshare. fold ms.
  rewrite (for_of_rewards_accepted _ _ ms _ _ Hrest).
  cbn [fst snd store with_calculation with_rewards rewards next_reward_pk].
  repeat split.
  - apply shares_length.
  - apply shares_users.
  - apply shares_uniform.
  - unfold created. rewrite shares_sum. fold n. unfold share.
    field. intro Hz.
    assert (Hq : inject_Z 0 < inject_Z (Z.of_nat n))
      by (rewrite <- Zlt_Qlt; lia).
    rewrite Hz in Hq. apply (Qlt_irrefl _ Hq).
Qed.

(** The example of the specification: a pool of 900000 over the three
    members of project 7 gives each of them 300000. *)
Lemma calculateReward_900000_over_three :
  let run := calculateReward (mkData 7 1 900000) (mkWorld three_member_store []) in
  exists share : Q,
    fst run = Resolved (Calculated 1 share) /\ share == 300000 /\
    map (fun r => (reward_user_id r, Qred (amount r))) (rewards (store (snd run)))
    = [(11%Z, 300000); (12%Z, 300000); (13%Z, 300000)] /\
    sum_amounts (rewards (store (snd run))) == 900000.
Proof.
  cbv zeta.
  destruct (calculateReward_equal_split (mkData 7 1 900000)
              (mkWorld three_member_store []) (mkProjectRow 7 "Portal")
              eq_refl (le_S _ _ (le_S _ _ (le_n 1))) eq_refl)
    as (Hout & Hrows & _ & _ & _ & Hsum).
  eexists. split; [exact Hout |].
  rewrite Hrows. split; [reflexivity |]. split; [reflexivity |].
  exact Hsum.
Defined.

(** C9: for an existing project without members, when the store accepts
    the one write, the divisor is 1 (never 0), [calculateReward] resolves
    to the new calculation with [perMember] equal to the whole pool, the
    calculation row is appended with status PRELIMINARY, and the rewards
    table is as before: no share is created. *)
Theorem calculateReward_no_members (data : data_t) (w : world)
  (p : projects_row) :
  find (fun p => Z.eqb (project_pk p) (project_id data)) (projects (store w))
  = Some p ->
  members_of (store w) (project_id data) = [] ->
  all_accepted 1 (faults w) = true ->
  or_one (length (members_of (store w) (project_id data))) = 1%nat /\
  (exists perMember : Q,
     fst (calculateReward data w)
     = Resolved (Calculated (next_calculation_pk (store w)) perMember) /\
     perMember == total_reward_pool data) /\
  reward_calculations (store (snd (calculateReward data w)))
  = reward_calculations (store w)
    ++ [mkCalculationRow (next_calculation_pk (store w)) (project_id data)
          (reward_policy_id data) (total_reward_pool data) PRELIMINARY] /\
  rewards (store (snd (calculateReward data w))) = rewards (store w) /\
  sum_amounts
    (shares (next_reward_pk (store w)) (next_calculation_pk (store w))
       (perMember_of data (store w)) (members_of (store w) (project_id data)))
  == 0.
Proof.
  intros Hp Hms Hacc. destruct w as [d fs]. cbn [store faults] in *.
  rewrite (calculateReward_run data d fs p Hp Hacc).
  unfold perMember_of. rewrite Hms.
  cbn [for_of ret fst snd store with_calculation reward_calculations rewards
       length or_one Nat.eqb shares sum_amounts fold_right].
  split; [reflexivity |]. split; [| split; [reflexivity | split; reflexivity]].
  eexists. split; [reflexivity |].
  change (inject_Z (Z.of_nat 1)) with 1. field.
Qed.

(** Project 8 has no member: the whole pool is reported per member, one
    calculation row is written and no reward row. *)
Lemma calculateReward_memberless_project_8 :
  let run := calculateReward (mkData 8 1 900000) (mkWorld memberless_store []) in
  (exists perMember : Q,
     fst run = Resolved (Calculated 1 perMember) /\ perMember == 900000) /\
  reward_calculations (store (snd run))
  = [mkCalculationRow 1 8 1 900000 PRELIMINARY] /\
  rewards (store (snd run)) = [].
Proof.
  cbv zeta.
  destruct (calculateReward_no_members (mkData 8 1 900000)
              (mkWorld memberless_store []) (mkProjectRow 8 "Intranet")
              eq_refl eq_refl eq_refl)
    as (_ & Hout & Hcalc & Hrewards & _).
  split; [exact Hout |]. split; [exact Hcalc | exact Hrewards].
Defined.

(** C5: for an existing project with [n] members, when the store accepts
    the calculation row and the first [j < n] reward rows and rejects the
    next reward row, the request fails with the store's message, and the
    store keeps what was written: the calculation row and [j] reward rows,
    fewer than [n]; earlier rows are untouched and the controller answers
    500. *)
Theorem calculateReward_partial_failure (data : data_t) (w : world)
  (p : projects_row) (j : nat) (msg : string) :
  let ms := members_of (store w) (project_id data) in
  let calculation := next_calculation_pk (store w) in
  let written :=
    shares (next_reward_pk (store w)) calculation (perMember_of data (store w))
      (firstn j ms) in
  find (fun p => Z.eqb (project_pk p) (project_id data)) (projects (store w))
  = Some p ->
  (j < length ms)%nat ->
  all_accepted (S j) (faults w) = true ->
  nth_error (faults w) (S j) = Some (Some msg) ->
  fst (calculateReward data w) = Rejected msg /\
  reward_calculations (store (snd (calculateReward data w)))
  = reward_calculations (store w) ++ [preliminary_row data (store w)] /\
  rewards (store (snd (calculateReward data w))) = rewards (store w) ++ written /\
  length written = j /\
  (length written < length ms)%nat /\
  fst (AdminController.calculateReward data w)
  = AdminController.mkResponse 500
      (AdminController.Failure "Lỗi khi tính thưởng" msg) /\
  snd (AdminController.calculateReward data w) = snd (calculateReward data w).
Proof.
  intros ms calculation written Hp Hj Hacc Hnth.
  assert (Hlen : length written = j).
  { unfold written. rewrite shares_length, length_firstn. lia. }
  unfold AdminController.calculateReward.
  destruct w as [d fs]. cbn [store faults] in *.
  apply all_accepted_split in Hacc. destruct Hacc as [H1 Hrest].
  rewrite nth_error_skip1 in Hnth.
  rewrite (calculateReward_run data d fs p Hp H1). fold ms.
  rewrite (for_of_rewards_rejected _ _ msg ms j _ _ Hj Hrest Hnth).
  cbn [fst snd store with_calculation with_rewards rewards reward_calculations
       next_reward_pk].
  repeat split; try assumption. lia.
Qed.

(** The second of three reward writes is rejected: the calculation and one
    reward row stay, for three members. *)
Lemma calculateReward_second_write_rejected :
  let w := mkWorld three_member_store [None; None; Some "deadlock"%string] in
  let run := calculateReward (mkData 7 1 900000) w in
  fst run = Rejected "deadlock" /\
  length (members_of (store w) 7) = 3%nat /\
  length (reward_calculations (store (snd run))) = 1%nat /\
  map reward_user_id (rewards (store (snd run))) = [11%Z].
Proof.
  cbv zeta.
  destruct (calculateReward_partial_failure (mkData 7 1 900000)
              (mkWorld three_member_store [None; None; Some "deadlock"%string])
              (mkProjectRow 7 "Portal") 1 "deadlock"
              eq_refl (le_S _ _ (le_n 2)) eq_refl eq_refl)
    as (Hout & Hcalc & Hrows & _).
  split; [exact Hout |]. split; [reflexivity |].
  rewrite Hcalc, Hrows. split; reflexivity.
Defined.

End RewardCalculation.

(** ** Sorting by a comparator that is the difference of a key *)

Section SortByKey.
Import Ai.

Variable A : Type.
Variable key : A -> Q.
Variable compare : A -> A -> Q.
Hypothesis compare_key : forall a b : A, compare a b == key b - key a.

Lemma keeps_place_iff (x y : A) :
  Qle_bool (compare x y) 0 = true <-> key y <= key x.
Proof.
  rewrite Qle_bool_iff, compare_key. split; intro H.
  - apply Qle_minus_iff in H.
    apply Qle_minus_iff. setoid_replace (key x + - key y) with (0 + - (key y - key x)) by ring.
    exact H.
  - apply Qle_minus_iff. apply Qle_minus_iff in H.
    setoid_replace (0 + - (key y - key x)) with (key x + - key y) by ring.
    exact H.
Qed.

Lemma insert_Permutation (x : A) (l : list A) :
  Permutation (insert compare x l) (x :: l).
Proof.
  induction l as [| y rest IH]; cbn.
  - apply Permutation_refl.
  - destruct (Qle_bool (compare x y) 0).
    + apply Permutation_refl.
    + apply perm_trans with (y :: x :: rest).
      * apply perm_skip, IH.
      * apply perm_swap.
Qed.

Lemma sort_Permutation (l : list A) : Permutation (sort compare l) l.
Proof.
  induction l as [| x rest IH]; cbn.
  - apply perm_nil.
  - apply perm_trans with (x :: sort compare rest).
    + apply insert_Permutation.
    + apply perm_skip, IH.
Qed.

Lemma sort_length (l : list A) : length (sort compare l) = length l.
Proof. apply Permutation_length, sort_Permutation. Qed.

Lemma descending_trans (a b c : A) :
  descending key a b -> descending key b c -> descending key a c.
Proof. unfold descending. intros H1 H2. apply (Qle_trans _ _ _ H2 H1). Qed.

Lemma insert_sorted (x : A) (l : list A) :
  StronglySorted (descending key) l ->
  StronglySorted (descending key) (insert compare x l).
Proof.
  induction 1 as [| y rest Hsorted IH Hall]; cbn.
  - constructor; [constructor | constructor].
  - destruct (Qle_bool (compare x y) 0) eqn:E.
    + apply keeps_place_iff in E.
      constructor; [constructor; assumption |].
      constructor; [exact E |].
      apply Forall_impl with (P := descending key y); [| exact Hall].
      intros z Hz. apply descending_trans with y; assumption.
    + constructor; [exact IH |].
      apply (Permutation_Forall (Permutation_sym (insert_Permutation x rest))).
      constructor; [| exact Hall].
      unfold descending.
      destruct (Qlt_le_dec (key x) (key y)) as [Hlt | Hle].
      * apply Qlt_le_weak, Hlt.
      * apply keeps_place_iff in Hle. rewrite Hle in E. discriminate E.
Qed.

Lemma sort_sorted (l : list A) : StronglySorted (descending key) (sort compare l).
Proof.
  induction l as [| x rest IH]; cbn.
  - constructor.
  - apply insert_sorted, IH.
Qed.




End SortByKey.

(** ** Team helpers *)

Section TeamSelection.
Import Ai.

Lemma fold_left_Qsum (B : Type) (f : B -> Q) (l : list B) :
  forall a : Q, fold_left (fun sum x => sum + f x) l a == a + Qsum (map f l).
Proof.
  unfold Qsum.
  induction l as [| x rest IH]; intro a; cbn [fold_left map fold_right].
  - ring.
  - rewrite IH. ring.
Qed.




(** [Set_size] counts each value once. *)
Lemma Set_size_distinct (values : list (option string)) :
  exists distinct : list (option string),
    NoDup distinct /\
    (forall v, In v distinct <-> In v values) /\
    Set_size values = length distinct.
Proof.
  exists (nodup key_eq_dec values). split; [apply NoDup_nodup |].
  split; [intro v; apply nodup_In | reflexivity].
Qed.



Lemma strategies_entries (userCapabilities : list candidate)
  (requiredRoles : list string) (teamSize : nat) (budget : option Q) :
  Forall (fun r =>
            team r = team_of (strategy r) userCapabilities requiredRoles
                       teamSize budget /\
            score r = calculateTeamScore (team r))
    (strategies userCapabilities requiredRoles teamSize budget).
Proof.
  unfold strategies. repeat constructor.
Qed.


End TeamSelection.

(* ================================================================== *)
(** * Part III: further properties of the same code                    *)
(* ================================================================== *)

(** ** Commission: repeated saves, score ranges, bonus percentage *)

Section CommissionMore.
Import Commission CommissionVirtuals.

(** X1: a second save with no edit in between leaves the totals
    consistent, and from then on a save changes nothing. *)
Theorem pre_save_settles_after_two (d : commission) :
  totals_consistent (pre_save (pre_save d)) = true /\
  pre_save (pre_save (pre_save d)) = pre_save (pre_save d) /\
  finalAmount (pre_save (pre_save d))
  = baseSalary d
    + (performanceBonus (aiCalculations d) + projectBonus (aiCalculations d)
       + qualityBonus (aiCalculations d) + innovationBonus (aiCalculations d))
    + adjustmentAmount (manualAdjustments d).
Proof.
  split; [apply pre_save_consistent_iff; reflexivity |].
  split; reflexivity.
Qed.

Lemma Qplus_nonneg (a b : Q) : 0 <= a -> 0 <= b -> 0 <= a + b.
Proof.
  intros Ha Hb. setoid_replace 0 with (0 + 0) by reflexivity.
  apply Qplus_le_compat; assumption.
Qed.

Ltac nonneg_sum :=
  repeat match goal with
         | |- 0 <= _ + _ => apply Qplus_nonneg
         end.

Ltac le_sum :=
  repeat match goal with
         | |- _ + _ <= _ + _ => apply Qplus_le_compat
         end.

Lemma weighted_in_range (x w : Q) :
  0 <= w -> score_in_range x -> 0 <= x * w /\ x * w <= 100 * w.
Proof.
  intros Hw [H0 H100]. split.
  - apply Qmult_le_0_compat; assumption.
  - apply Qmult_le_compat_r; assumption.
Qed.

(** X2: with every score within the schema's range 0..100, the total score
    and the project score are within 0..100 as well. *)
Theorem scores_stay_in_range (d : commission) :
  performance_in_range (performanceMetrics d) ->
  score_in_range (projectProgress (projectMetrics d)) ->
  score_in_range (clientSatisfaction (projectMetrics d)) ->
  score_in_range (deadlineAdherence (projectMetrics d)) ->
  score_in_range (totalScore d) /\ score_in_range (projectScore d).
Proof.
  intros (Hk & Hq & He & Ht & Hi) Hp Hc Hd.
  unfold totalScore, projectScore. cbv zeta.
  destruct (weighted_in_range _ 0.3 ltac:(discriminate) Hk) as [k0 k1].
  destruct (weighted_in_range _ 0.2 ltac:(discriminate) Hq) as [q0 q1].
  destruct (weighted_in_range _ 0.2 ltac:(discriminate) He) as [e0 e1].
  destruct (weighted_in_range _ 0.15 ltac:(discriminate) Ht) as [t0 t1].
  destruct (weighted_in_range _ 0.15 ltac:(discriminate) Hi) as [i0 i1].
  destruct (weighted_in_range _ 0.3 ltac:(discriminate) Hp) as [p0 p1].
  destruct (weighted_in_range _ 0.3 ltac:(discriminate) Hc) as [c0 c1].
  destruct (weighted_in_range _ 0.4 ltac:(discriminate) Hd) as [d0 d1].
  split; split.
  - nonneg_sum; assumption.
  - setoid_replace 100 with (100 * 0.3 + 100 * 0.2 + 100 * 0.2 + 100 * 0.15 + 100 * 0.15)
      by reflexivity.
    le_sum; assumption.
  - nonneg_sum; assumption.
  - setoid_replace 100 with (100 * 0.3 + 100 * 0.3 + 100 * 0.4) by reflexivity.
    le_sum; assumption.
Qed.

Lemma scores_stay_in_range_example :
  score_in_range (totalScore first_save_example) /\
  score_in_range (projectScore first_save_example).
Proof.
  apply (scores_stay_in_range first_save_example);
    repeat split; discriminate.
Defined.

(** X3: raising performance scores never lowers the total score. *)
Theorem totalScore_monotone (d1 d2 : commission) :
  performance_le (performanceMetrics d1) (performanceMetrics d2) ->
  totalScore d1 <= totalScore d2.
Proof.
  intros (Hk & Hq & He & Ht & Hi). unfold totalScore. cbv zeta.
  le_sum; apply Qmult_le_compat_r; try assumption; discriminate.
Qed.

Lemma totalScore_monotone_example :
  totalScore developer_kpi_only
  <= totalScore
       (mkCommission tester 0 (mkPerformance 100 50 0 0 10)
          (mkProjectMetrics 0 0 0 0) (mkAi 0 0 0 0 0 0 0) (mkAdjust 0) 0 draft).
Proof.
  apply totalScore_monotone. repeat split; discriminate.
Defined.


End CommissionMore.

(** ** Project: the save hook on any document, the profit margin *)

Section ProjectMore.
Import Project.

(** X5: for a project with 1 to 39 milestones, whatever their state, a
    save stores exactly the rounded percentage of completed milestones. *)
Theorem pre_save_progress_exact_up_to_39 (p : project) :
  (1 <= length (milestones p) < 40)%nat ->
  PrimFloat.eqb (actual (progress (pre_save p)))
    (of_Z (rounded_percentage (length (filter isCompleted (milestones p)))
             (length (milestones p))))
  = true.
Proof.
  intro Hn.
  set (n := length (milestones p)) in *.
  set (c := length (filter isCompleted (milestones p))).
  assert (Hc : (c <= n)%nat) by apply filter_length_le.
  assert (NE : milestones p <> []).
  { intro E. unfold n in Hn. rewrite E in Hn. cbn in Hn. lia. }
  rewrite (pre_save_progress p NE). fold c. fold n.
  assert (T := pre_save_progress_exact_below_40 c n Hn Hc).
  unfold stores_rounded_percentage in T.
  destruct (with_milestones_counts c n Hc) as [En Ec].
  rewrite pre_save_progress in T.
  - rewrite En, Ec in T. exact T.
  - intro E. rewrite E in En. cbn in En. lia.
Qed.

Lemma pre_save_progress_exact_2_of_3 :
  PrimFloat.eqb (actual (progress (pre_save (with_milestones 2 3)))) 67 = true.
Proof.
  apply (pre_save_progress_exact_up_to_39 (with_milestones 2 3)).
  cbn. lia.
Defined.

(** X6: a save never touches the code, the milestones or the planned
    progress, and saving again changes nothing; with a milestone the
    progress held before the save is irrelevant, without one it stays. *)
Theorem pre_save_idempotent (p : project) :
  code (pre_save p) = code p /\
  milestones (pre_save p) = milestones p /\
  planned (progress (pre_save p)) = planned (progress p) /\
  pre_save (pre_save p) = pre_save p /\
  (forall stale : float,
     actual (progress (pre_save (set_actual stale p)))
     = if (0 <? length (milestones p))%nat then actual (progress (pre_save p))
       else stale).
Proof.
  destruct p as [cd ms [pl ac]]. unfold pre_save.
  destruct ms as [| m ms];
    cbn [milestones length Nat.ltb Nat.leb set_actual code progress planned actual];
    repeat split.
Qed.

End ProjectMore.

Section ProjectMargin.
Import ProjectVirtuals.



(** Without actual revenue the margin is 0: no division by zero. *)
Lemma profitMargin_without_revenue (p : finance) :
  actual (revenue p) <= 0 -> profitMargin p = 0.
Proof.
  intro H. unfold profitMargin. apply Qle_bool_iff in H. rewrite H. reflexivity.
Qed.

End ProjectMargin.

(** ** calculateReward under any answer of the store *)

Section RewardCalculationMore.
Import Store AdminService StoreIntegrity.

(** However the store answers, the loop leaves the rows of the first [j]
    members, and it resolves only when [j] is all of them. *)
Lemma for_of_rewards_any (c : Z) (a : Q) (ms : list project_members_row) :
  forall (d : db) (fs : list (option string)),
  exists j : nat,
    (j <= length ms)%nat /\
    store (snd (for_of ms (fun m => rewards_create c (user_id m) a)
                  (mkWorld d fs)))
    = with_rewards d (shares (next_reward_pk d) c a (firstn j ms)) /\
    match fst (for_of ms (fun m => rewards_create c (user_id m) a)
                 (mkWorld d fs)) with
    | Resolved _ => j = length ms
    | Rejected _ => (j < length ms)%nat
    end.
Proof.
  induction ms as [| m rest IH]; intros d fs.
  - exists 0%nat. cbn. rewrite with_rewards_nil. auto.
  - destruct fs as [| [msg |] fs].
    + cbn [for_of]. unfold bind at 1 2.
      rewrite (rewards_create_accepted _ _ _ _ [] eq_refl). cbn [skipn].
      destruct (IH (with_rewards d [mkRewardRow (next_reward_pk d) c (user_id m) a]) [])
        as (j & Hj & Hs & Ho).
      exists (S j). split; [cbn; lia |]. split.
      * rewrite Hs. cbn [firstn shares].
        change (next_reward_pk (with_rewards d [mkRewardRow (next_reward_pk d) c (user_id m) a]))
          with (next_reward_pk d + 1)%Z.
        apply with_rewards_cons.
      * destruct (fst (for_of rest _ _)); cbn [length]; lia.
    + exists 0%nat. cbn [for_of]. unfold bind at 1 2.
      rewrite rewards_create_rejected. cbn.
      rewrite with_rewards_nil. split; [lia |]. split; [reflexivity | lia].
    + cbn [for_of]. unfold bind at 1 2.
      rewrite (rewards_create_accepted _ _ _ _ (None :: fs) eq_refl). cbn [skipn].
      destruct (IH (with_rewards d [mkRewardRow (next_reward_pk d) c (user_id m) a]) fs)
        as (j & Hj & Hs & Ho).
      exists (S j). split; [cbn; lia |]. split.
      * rewrite Hs. cbn [firstn shares].
        change (next_reward_pk (with_rewards d [mkRewardRow (next_reward_pk d) c (user_id m) a]))
          with (next_reward_pk d + 1)%Z.
        apply with_rewards_cons.
      * destruct (fst (for_of rest _ _)); cbn [length]; lia.
Qed.

(** A request either leaves the store as it was, or leaves the calculation
    row and the reward rows of the first [j] members. *)
Lemma calculateReward_cases (data : data_t) (d : db) (fs : list (option string)) :
  let run := calculateReward data (mkWorld d fs) in
  let ms := members_of d (project_id data) in
  (store (snd run) = d /\
   match fst run with
   | Resolved (Calculated _ _) => False
   | _ => True
   end)
  \/
  (exists j : nat,
     (j <= length ms)%nat /\
     store (snd run)
     = with_rewards (with_calculation d (preliminary_row data d))
         (shares (next_reward_pk d) (next_calculation_pk d)
            (perMember_of data d) (firstn j ms)) /\
     match fst run with
     | Resolved (Calculated cid share) =>
         j = length ms /\ cid = next_calculation_pk d /\
         share = perMember_of data d
     | Resolved (Error _) => False
     | Rejected _ => (j < length ms)%nat
     end).
Proof.
  intros run ms. subst run.
  destruct (find (fun p => Z.eqb (project_pk p) (project_id data)) (projects d))
    as [p |] eqn:Hp.
  - destruct fs as [| [msg |] fs].
    + right. rewrite (calculateReward_run data d [] p Hp eq_refl). fold ms.
      destruct (for_of_rewards_any (next_calculation_pk d) (perMember_of data d) ms
                  (with_calculation d (preliminary_row data d)) (skipn 1 []))
        as (j & Hj & Hs & Ho).
      exists j. split; [exact Hj |].
      destruct (for_of ms _ _) as [[u | msg] w']; cbn [fst snd] in *; auto.
    + left. unfold calculateReward, bind, projects_findByPk. cbn [store].
      rewrite Hp. cbn. auto.
    + right. rewrite (calculateReward_run data d (None :: fs) p Hp eq_refl). fold ms.
      destruct (for_of_rewards_any (next_calculation_pk d) (perMember_of data d) ms
                  (with_calculation d (preliminary_row data d)) (skipn 1 (None :: fs)))
        as (j & Hj & Hs & Ho).
      exists j. split; [exact Hj |].
      destruct (for_of ms _ _) as [[u | msg] w']; cbn [fst snd] in *; auto.
  - left. unfold calculateReward, bind, projects_findByPk. cbn [store].
    rewrite Hp. cbn. auto.
Qed.

(** X8: whatever the store answers and however the request ends,
    [calculateReward] leaves the projects and their members as they were
    and only appends: at most one calculation row, and reward rows for the
    first [j] members in member order, none without the calculation row;
    it resolves with a calculation only when all of them were written. *)
Theorem calculateReward_only_appends (data : data_t) (w : world) :
  let run := calculateReward data w in
  let ms := members_of (store w) (project_id data) in
  projects (store (snd run)) = projects (store w) /\
  project_members (store (snd run)) = project_members (store w) /\
  exists (calcs : list reward_calculations_row) (j : nat),
    (length calcs <= 1)%nat /\ (j <= length ms)%nat /\
    (length calcs = 0%nat -> j = 0%nat) /\
    reward_calculations (store (snd run))
    = reward_calculations (store w) ++ calcs /\
    rewards (store (snd run))
    = rewards (store w)
      ++ shares (next_reward_pk (store w)) (next_calculation_pk (store w))
           (perMember_of data (store w)) (firstn j ms) /\
    match fst run with
    | Resolved (Calculated cid _) =>
        calcs = [preliminary_row data (store w)] /\ j = length ms /\
        cid = next_calculation_pk (store w)
    | Resolved (Error _) => calcs = [] /\ j = 0%nat
    | Rejected _ => (j < length ms)%nat \/ calcs = []
    end.
Proof.
  destruct w as [d fs]. cbv zeta. cbn [store].
  destruct (calculateReward_cases data d fs) as [[Hs Ho] | (j & Hj & Hs & Ho)].
  - rewrite Hs. split; [reflexivity |]. split; [reflexivity |].
    exists [], 0%nat. cbn [length firstn shares].
    rewrite !app_nil_r.
    repeat split; try lia.
    destruct (fst (calculateReward data (mkWorld d fs))) as [[e | cid share] | msg];
      auto. contradiction.
  - rewrite Hs. split; [reflexivity |]. split; [reflexivity |].
    exists [preliminary_row data d], j. cbn [length].
    split; [lia |]. split; [exact Hj |]. split; [discriminate |].
    split; [reflexivity |]. split; [reflexivity |].
    destruct (fst (calculateReward data (mkWorld d fs))) as [[e | cid share] | msg].
    + contradiction.
    + destruct Ho as (-> & -> & _). auto.
    + left. exact Ho.
Qed.

(** X9: when the store rejects the calculation row itself, the request
    fails with the store's message, nothing is written, no reward write is
    attempted, and the controller answers 500 with that message. *)
Theorem calculateReward_calculation_rejected (data : data_t) (w : world)
  (p : projects_row) (msg : string) (later : list (option string)) :
  find (fun p => Z.eqb (project_pk p) (project_id data)) (projects (store w))
  = Some p ->
  faults w = Some msg :: later ->
  calculateReward data w = (Rejected msg, mkWorld (store w) later) /\
  AdminController.calculateReward data w
  = (AdminController.mkResponse 500
       (AdminController.Failure "Lỗi khi tính thưởng" msg),
     mkWorld (store w) later).
Proof.
  intros Hp Hf. destruct w as [d fs]. cbn [store faults] in *. subst fs.
  assert (E : calculateReward data (mkWorld d (Some msg :: later))
              = (Rejected msg, mkWorld d later)).
  { unfold calculateReward, bind, projects_findByPk. cbn [store].
    rewrite Hp. reflexivity. }
  split; [exact E |].
  unfold AdminController.calculateReward. rewrite E. reflexivity.
Qed.

Lemma calculateReward_calculation_rejected_example :
  let w := mkWorld three_member_store [Some "read only"%string; None] in
  store (snd (calculateReward (mkData 7 1 900000) w)) = three_member_store /\
  faults (snd (calculateReward (mkData 7 1 900000) w)) = [None] /\
  AdminController.statusCode
    (fst (AdminController.calculateReward (mkData 7 1 900000) w)) = 500%nat.
Proof.
  cbv zeta.
  destruct (calculateReward_calculation_rejected (mkData 7 1 900000)
              (mkWorld three_member_store [Some "read only"%string; None])
              (mkProjectRow 7 "Portal") "read only" [None] eq_refl eq_refl)
    as [E1 E2].
  rewrite E1, E2. repeat split.
Defined.

Lemma all_accepted_add (a b : nat) :
  forall fs : list (option string),
    all_accepted (a + b) fs = true ->
    all_accepted a fs = true /\ all_accepted b (skipn a fs) = true.
Proof.
  induction a as [| a IH]; intros fs H.
  - split; [reflexivity | exact H].
  - destruct fs as [| f fs].
    + split; [apply all_accepted_nil | rewrite skipn_nil; apply all_accepted_nil].
    + cbn [Nat.add] in H. apply all_accepted_cons in H. destruct H as [-> H].
      destruct (IH fs H) as [H1 H2]. split; [exact H1 | exact H2].
Qed.

(** A request whose writes are all accepted, as an equation on worlds. *)
Lemma calculateReward_accepted (data : data_t) (d : db)
  (fs : list (option string)) (p : projects_row) :
  let ms := members_of d (project_id data) in
  find (fun p => Z.eqb (project_pk p) (project_id data)) (projects d) = Some p ->
  all_accepted (S (length ms)) fs = true ->
  calculateReward data (mkWorld d fs)
  = (Resolved (Calculated (next_calculation_pk d) (perMember_of data d)),
     mkWorld
       (with_rewards (with_calculation d (preliminary_row data d))
          (shares (next_reward_pk d) (next_calculation_pk d)
             (perMember_of data d) ms))
       (skipn (S (length ms)) fs)).
Proof.
  intros ms Hp Hacc.
  apply all_accepted_split in Hacc. destruct Hacc as [H1 Hrest].
  rewrite (calculateReward_run data d fs p Hp H1). fold ms.
  rewrite (for_of_rewards_accepted _ _ ms _ _ Hrest).
  rewrite skipn_skipn, Nat.add_1_r. reflexivity.
Qed.

(** X10: nothing makes a repeated request idempotent: posting the same
    data twice, all writes accepted, resolves twice, with consecutive
    calculation ids, and leaves two calculation rows and two reward rows
    per member. *)
Theorem calculateReward_twice (data : data_t) (w : world) (p : projects_row) :
  let ms := members_of (store w) (project_id data) in
  let n := length ms in
  let cid := next_calculation_pk (store w) in
  let share := perMember_of data (store w) in
  let first := calculateReward data w in
  let second := calculateReward data (snd first) in
  find (fun p => Z.eqb (project_pk p) (project_id data)) (projects (store w))
  = Some p ->
  all_accepted (S n + S n) (faults w) = true ->
  fst first = Resolved (Calculated cid share) /\
  fst second = Resolved (Calculated (cid + 1)%Z share) /\
  reward_calculations (store (snd second))
  = reward_calculations (store w)
    ++ [mkCalculationRow cid (project_id data) (reward_policy_id data)
          (total_reward_pool data) PRELIMINARY;
        mkCalculationRow (cid + 1)%Z (project_id data) (reward_policy_id data)
          (total_reward_pool data) PRELIMINARY] /\
  rewards (store (snd second))
  = rewards (store w)
    ++ shares (next_reward_pk (store w)) cid share ms
    ++ shares (next_reward_pk (store w) + Z.of_nat n)%Z (cid + 1)%Z share ms /\
  length (rewards (store (snd second)))
  = (length (rewards (store w)) + 2 * n)%nat.
Proof.
  intros ms n cid share first second Hp Hacc.
  destruct w as [d fs]. cbn [store faults] in *.
  apply all_accepted_add in Hacc. destruct Hacc as [H1 H2].
  assert (E1 := calculateReward_accepted data d fs p Hp H1).
  cbv zeta in E1. fold ms in E1. fold n in E1. fold cid in E1. fold share in E1.
  set (d1 := with_rewards (with_calculation d (preliminary_row data d))
               (shares (next_reward_pk d) cid share ms)) in *.
  assert (Hms : members_of d1 (project_id data) = ms) by reflexivity.
  assert (Hshare : perMember_of data d1 = share) by reflexivity.
  assert (E2 := calculateReward_accepted data d1 (skipn (S n) fs) p Hp).
  cbv zeta in E2. rewrite Hms, Hshare in E2. fold n in E2.
  specialize (E2 H2).
  unfold second, first. rewrite E1. cbn [fst snd]. rewrite E2. cbn [fst snd store].
  split; [reflexivity |]. split; [reflexivity |].
  unfold d1. cbn [with_rewards with_calculation reward_calculations rewards
                  next_reward_pk next_calculation_pk preliminary_row].
  rewrite shares_length. fold n. fold cid.
  split; [rewrite <- app_assoc; reflexivity |].
  split; [rewrite <- app_assoc; reflexivity |].
  rewrite !length_app, !shares_length. fold n. lia.
Qed.

Lemma calculateReward_twice_example :
  let first := calculateReward (mkData 7 1 900000) (mkWorld three_member_store []) in
  let second := calculateReward (mkData 7 1 900000) (snd first) in
  map calculation_pk (reward_calculations (store (snd second))) = [1%Z; 2%Z] /\
  map (fun r => (reward_pk r, calculation_id r, reward_user_id r))
    (rewards (store (snd second)))
  = [(1, 1, 11); (2, 1, 12); (3, 1, 13); (4, 2, 11); (5, 2, 12); (6, 2, 13)]%Z.
Proof.
  cbv zeta.
  destruct (calculateReward_twice (mkData 7 1 900000)
              (mkWorld three_member_store []) (mkProjectRow 7 "Portal")
              eq_refl eq_refl)
    as (_ & _ & Hc & Hr & _).
  rewrite Hc, Hr. split; reflexivity.
Defined.

Lemma shares_keys (c : Z) (a : Q) (ms : list project_members_row) :
  forall pk : Z,
    Forall (fun r => (pk <= reward_pk r < pk + Z.of_nat (length ms))%Z
                     /\ calculation_id r = c)
      (shares pk c a ms) /\
    NoDup (map reward_pk (shares pk c a ms)).
Proof.
  induction ms as [| m rest IH]; intro pk.
  - split; constructor.
  - destruct (IH (pk + 1)%Z) as [Hall Hnd].
    cbn [shares map length reward_pk]. split.
    + constructor; [cbn; split; [lia | reflexivity] |].
      apply Forall_impl with (2 := Hall). intros r [Hr Hc]. split; [lia | exact Hc].
    + constructor; [| exact Hnd].
      intro Hin. apply in_map_iff in Hin. destruct Hin as (r & Er & Hr).
      rewrite Forall_forall in Hall. destruct (Hall r Hr) as [Hb _]. lia.
Qed.

(** X11: [calculateReward] keeps the keys of the store sound, whatever the
    store answers: primary keys stay unique and below the counters, and
    every reward row still refers to a calculation row, also after a
    request that failed half-way. *)
Theorem calculateReward_keeps_well_keyed (data : data_t) (w : world) :
  well_keyed (store w) ->
  well_keyed (store (snd (calculateReward data w))).
Proof.
  destruct w as [d fs]. cbn [store]. intro W.
  destruct (calculateReward_cases data d fs) as [[Hs _] | (j & _ & Hs & _)];
    rewrite Hs; [exact W |].
  destruct W as (Nc & Nr & Bc & Br & Ref).
  set (ms := firstn j (members_of d (project_id data))).
  destruct (shares_keys (next_calculation_pk d) (perMember_of data d) ms
              (next_reward_pk d)) as [Hall Hnd].
  rewrite Forall_forall in Bc, Br, Ref, Hall.
  unfold well_keyed.
  cbn [with_rewards with_calculation reward_calculations rewards
       next_calculation_pk next_reward_pk preliminary_row].
  rewrite !map_app. cbn [map calculation_pk].
  repeat split.
  - apply NoDup_app; [exact Nc | repeat constructor; intros [] |].
    intros k Hk [<- | []].
    apply in_map_iff in Hk. destruct Hk as (c & Ec & Hc).
    specialize (Bc c Hc). cbn in Ec. lia.
  - apply NoDup_app; [exact Nr | exact Hnd |].
    intros k Hk Hk'.
    apply in_map_iff in Hk. destruct Hk as (r & Er & Hr).
    apply in_map_iff in Hk'. destruct Hk' as (r' & Er' & Hr').
    specialize (Br r Hr). destruct (Hall r' Hr') as [Hb _]. lia.
  - apply Forall_app. split; apply Forall_forall.
    + intros c Hc. specialize (Bc c Hc). lia.
    + intros c [<- | []]. cbn. lia.
  - apply Forall_app. split; apply Forall_forall.
    + intros r Hr. specialize (Br r Hr). lia.
    + intros r Hr. destruct (Hall r Hr) as [Hb _]. rewrite shares_length. lia.
  - apply Forall_app. split; apply Forall_forall.
    + intros r Hr. apply in_or_app. left. apply (Ref r Hr).
    + intros r Hr. destruct (Hall r Hr) as [_ ->].
      apply in_or_app. right. left. reflexivity.
Qed.

Lemma calculateReward_keeps_well_keyed_example :
  well_keyed
    (store (snd (calculateReward (mkData 7 1 900000)
                   (mkWorld three_member_store
                      [None; None; Some "deadlock"%string])))).
Proof.
  apply calculateReward_keeps_well_keyed.
  cbn. repeat split; constructor.
Defined.

End RewardCalculationMore.

(** ** The balanced team *)

Section BalancedTeam.
Import Ai Teams.

Lemma In_firstn (B : Type) (n : nat) (l : list B) (x : B) :
  In x (firstn n l) -> In x l.
Proof.
  intro H. rewrite <- (firstn_skipn n l). apply in_or_app. left. exact H.
Qed.

(** Whatever is taken from the front of a sorted filter passes the filter. *)
Lemma In_firstn_sort_filter (compare : candidate -> candidate -> Q)
  (f : candidate -> bool) (n : nat) (l : list candidate) (u : candidate) :
  In u (firstn n (sort compare (filter f l))) -> In u l /\ f u = true.
Proof.
  intro H. apply In_firstn in H.
  apply (Permutation_in _ (sort_Permutation _ compare (filter f l))) in H.
  apply filter_In in H. exact H.
Qed.

Lemma seniorCount_bound (teamSize : nat) :
  (1 + Nat.min 2 (teamSize / 3) <= Nat.max teamSize 1)%nat.
Proof.
  destruct teamSize as [| k]; [cbn; lia |].
  assert (H : (S k / 3 < S k)%nat) by (apply Nat.div_lt; lia).
  lia.
Qed.

(** Every member of the balanced team is an available candidate of the
    list. *)
Lemma selectBalancedTeam_members (userCapabilities : list candidate)
  (requiredRoles : list string) (teamSize : nat) :
  Forall (fun u => In u userCapabilities /\ available u = true)
    (selectBalancedTeam userCapabilities requiredRoles teamSize).
Proof.
  unfold selectBalancedTeam.
  rewrite !Forall_app. repeat split; apply Forall_forall; intros u Hu.
  - apply In_firstn_sort_filter in Hu. destruct Hu as [Hin Hf].
    apply andb_prop in Hf. destruct Hf as [Ha _]. split; assumption.
  - apply In_firstn_sort_filter in Hu. destruct Hu as [Hin _].
    apply filter_In in Hin. destruct Hin as [Hin Hf].
    apply andb_prop in Hf. destruct Hf as [Ha _]. split; assumption.
  - apply In_firstn_sort_filter in Hu. destruct Hu as [Hin Hf].
    apply andb_prop in Hf. destruct Hf as [Ha _]. split; assumption.
Qed.

(** X12: the balanced team consists of available candidates of the given
    list only, and has at most [teamSize] members (one, for a team size
    of 0: the leader is pushed before the size is looked at). *)
Theorem selectBalancedTeam_sound (userCapabilities : list candidate)
  (requiredRoles : list string) (teamSize : nat) :
  let team := selectBalancedTeam userCapabilities requiredRoles teamSize in
  Forall (fun u => In u userCapabilities /\ available u = true) team /\
  (length team <= Nat.max teamSize 1)%nat.
Proof.
  cbv zeta. split; [apply selectBalancedTeam_members |].
  unfold selectBalancedTeam.
  set (leaders := sort _ (filter _ userCapabilities)).
  set (L := firstn 1 leaders).
  set (seniors := sort byScore (filter _ (filter _ userCapabilities))).
  set (S' := firstn (Nat.min 2 (teamSize / 3)) seniors).
  set (juniors := sort byScore (filter _ userCapabilities)).
  rewrite !length_app.
  assert (HL : (length L <= 1)%nat) by apply firstn_le_length.
  assert (HS : (length S' <= Nat.min 2 (teamSize / 3))%nat) by apply firstn_le_length.
  assert (HJ : (length (firstn (teamSize - (length L + length S')) juniors)
                <= teamSize - (length L + length S'))%nat)
    by apply firstn_le_length.
  assert (B := seniorCount_bound teamSize). lia.
Qed.

Lemma ids_filter_NoDup (f : candidate -> bool) (l : list candidate) :
  NoDup (ids l) -> NoDup (ids (filter f l)).
Proof.
  unfold ids. induction l as [| u rest IH]; intro H; [exact H |].
  cbn [map] in H. inversion H as [| ? ? Hnotin Hrest]; subst.
  cbn [filter]. destruct (f u); [| apply IH, Hrest].
  cbn [map]. constructor; [| apply IH, Hrest].
  intro Hin. apply Hnotin.
  apply in_map_iff in Hin. destruct Hin as (v & Ev & Hv).
  apply in_map_iff. exists v. split; [exact Ev |].
  apply filter_In in Hv. apply Hv.
Qed.

Lemma ids_firstn_NoDup (n : nat) (l : list candidate) :
  NoDup (ids l) -> NoDup (ids (firstn n l)).
Proof.
  unfold ids. intro H. rewrite <- (firstn_skipn n l), map_app in H.
  apply NoDup_app_remove_r in H. exact H.
Qed.

Lemma ids_selected_NoDup (compare : candidate -> candidate -> Q)
  (f : candidate -> bool) (n : nat) (l : list candidate) :
  NoDup (ids l) -> NoDup (ids (firstn n (sort compare (filter f l)))).
Proof.
  intro H. apply ids_firstn_NoDup.
  apply (Permutation_NoDup
           (Permutation_map _ (Permutation_sym (sort_Permutation _ compare (filter f l))))).
  apply ids_filter_NoDup, H.
Qed.

Lemma has_false_iff (selectedUsers : list string) (i : string) :
  has selectedUsers i = false <-> ~ In i selectedUsers.
Proof.
  unfold has. split.
  - intros H Hin.
    assert (E : existsb (String.eqb i) selectedUsers = true).
    { apply existsb_exists. exists i. split; [exact Hin | apply String.eqb_refl]. }
    rewrite E in H. discriminate H.
  - intro H. destruct (existsb (String.eqb i) selectedUsers) eqn:E; [| reflexivity].
    apply existsb_exists in E. destruct E as (x & Hx & Ex).
    apply String.eqb_eq in Ex. subst x. contradiction.
Qed.

Lemma filter_andb (B : Type) (f g : B -> bool) (l : list B) :
  filter (fun x => f x && g x) l = filter g (filter f l).
Proof.
  induction l as [| x rest IH]; [reflexivity |].
  cbn [filter]. destruct (f x); cbn [andb filter]; rewrite IH; reflexivity.
Qed.

(** Among candidates with distinct ids, those whose id is in the ids of a
    sub-team [T] are as many as [T]. *)
Lemma selected_count (T A : list candidate) :
  NoDup (ids A) -> NoDup (ids T) -> incl T A ->
  length (filter (fun u => has (ids T) (id (user u))) A) = length T.
Proof.
  intros HA HT Hincl.
  set (X := filter (fun u => has (ids T) (id (user u))) A).
  assert (P : Permutation (ids X) (ids T)).
  { apply NoDup_Permutation; [apply ids_filter_NoDup, HA | exact HT |].
    intro i. unfold ids, X. rewrite !in_map_iff. split.
    - intros (u & Eu & Hu). apply filter_In in Hu. destruct Hu as [_ Hh].
      destruct (has (ids T) (id (user u))) eqn:E; [| discriminate Hh].
      destruct (in_dec string_dec (id (user u)) (ids T)) as [Hin | Hout].
      + unfold ids in Hin. apply in_map_iff in Hin.
        destruct Hin as (t & Et & Ht). exists t. split; [congruence | exact Ht].
      + apply has_false_iff in Hout. rewrite Hout in E. discriminate E.
    - intros (t & Et & Ht). exists t. split; [exact Et |].
      apply filter_In. split; [apply Hincl, Ht |].
      destruct (has (ids T) (id (user t))) eqn:E; [reflexivity |].
      apply has_false_iff in E. exfalso. apply E.
      apply (in_map (fun u => id (user u))). exact Ht. }
  apply Permutation_length in P. unfold ids in P. rewrite !length_map in P.
  exact P.
Qed.

(** X13: when the candidates have distinct ids, nobody is selected twice,
    and for a team size of at least 1 the balanced team has exactly
    [min teamSize (number of available candidates)] members. *)
Theorem selectBalancedTeam_full (userCapabilities : list candidate)
  (requiredRoles : list string) (teamSize : nat) :
  NoDup (ids userCapabilities) ->
  (1 <= teamSize)%nat ->
  let team := selectBalancedTeam userCapabilities requiredRoles teamSize in
  NoDup (ids team) /\
  length team = Nat.min teamSize (length (filter available userCapabilities)).
Proof.
  intros Hnd Hk. cbv zeta. unfold selectBalancedTeam.
  set (leaders := sort _ (filter _ userCapabilities)).
  set (L := firstn 1 leaders).
  set (seniors := sort byScore (filter _ (filter _ userCapabilities))).
  set (S' := firstn (Nat.min 2 (teamSize / 3)) seniors).
  set (T := L ++ S').
  set (juniors := sort byScore (filter _ userCapabilities)).
  set (J := firstn (teamSize - length T) juniors).
  set (A := filter available userCapabilities).
  assert (NL : NoDup (ids L)) by (apply ids_selected_NoDup, Hnd).
  assert (NS : NoDup (ids S')).
  { unfold S', seniors. rewrite <- filter_andb.
    apply ids_selected_NoDup, Hnd. }
  assert (NJ : NoDup (ids J)) by (apply ids_selected_NoDup, Hnd).
  assert (NT : NoDup (ids T)).
  { unfold T, ids. rewrite map_app. apply NoDup_app; [exact NL | exact NS |].
    intros i Hi Hi'. apply in_map_iff in Hi'. destruct Hi' as (u & Eu & Hu).
    apply In_firstn_sort_filter in Hu. destruct Hu as [Hu _].
    apply filter_In in Hu. destruct Hu as [_ Hf].
    apply andb_prop in Hf. destruct Hf as [_ Hn].
    apply negb_true_iff, has_false_iff in Hn. apply Hn. subst i. exact Hi. }
  assert (IT : incl T A).
  { intros u Hu. unfold T in Hu. apply in_app_or in Hu. unfold A.
    apply filter_In. destruct Hu as [Hu | Hu].
    - apply In_firstn_sort_filter in Hu. destruct Hu as [Hin Hf].
      apply andb_prop in Hf. destruct Hf as [Ha _]. split; assumption.
    - apply In_firstn_sort_filter in Hu. destruct Hu as [Hin _].
      apply filter_In in Hin. destruct Hin as [Hin Hf].
      apply andb_prop in Hf. destruct Hf as [Ha _]. split; assumption. }
  split.
  - unfold ids. rewrite map_app. apply NoDup_app; [exact NT | exact NJ |].
    intros i Hi Hi'. apply in_map_iff in Hi'. destruct Hi' as (u & Eu & Hu).
    apply In_firstn_sort_filter in Hu. destruct Hu as [_ Hf].
    apply andb_prop in Hf. destruct Hf as [_ Hn].
    apply negb_true_iff, has_false_iff in Hn. apply Hn. subst i. exact Hi.
  - assert (NA : NoDup (ids A)) by (apply ids_filter_NoDup, Hnd).
    assert (C := selected_count T A NA NT IT).
    assert (F := filter_length (fun u => has (ids T) (id (user u))) A).
    rewrite C in F.
    assert (EJ : length juniors = length (filter (fun u => negb (has (ids T) (id (user u)))) A)).
    { unfold juniors. rewrite (sort_length _ byScore).
      rewrite (filter_andb _ (fun u => isAvailable (availability u))
                 (fun u => negb (has (ids T) (id (user u))))).
      reflexivity. }
    rewrite length_app. unfold J. rewrite length_firstn, EJ.
    assert (HT : (length T <= Nat.max teamSize 1)%nat).
    { unfold T. rewrite length_app.
      assert (HL : (length L <= 1)%nat) by apply firstn_le_length.
      assert (HS : (length S' <= Nat.min 2 (teamSize / 3))%nat)
        by apply firstn_le_length.
      assert (B := seniorCount_bound teamSize). lia. }
    fold A. lia.
Qed.

Lemma selectBalancedTeam_full_example :
  ids (selectBalancedTeam staff [] 3) = ["an"; "dung"; "em"]%string /\
  NoDup (ids (selectBalancedTeam staff [] 3)) /\
  length (selectBalancedTeam staff [] 3) = 3%nat.
Proof.
  split; [reflexivity |].
  apply (selectBalancedTeam_full staff [] 3); [| apply le_S, le_S, le_n].
  repeat constructor; cbn; intuition discriminate.
Defined.

End BalancedTeam.

(** ** The cost-effective team, diversity, and the recommendation *)

Section Recommendation.
Import Ai Teams.


Lemma insert_ext (B : Type) (c1 c2 : B -> B -> Q) (x : B) (l : list B) :
  (forall y, In y l -> Qle_bool (c1 x y) 0 = Qle_bool (c2 x y) 0) ->
  insert c1 x l = insert c2 x l.
Proof.
  induction l as [| y rest IH]; intro H; [reflexivity |].
  cbn [insert]. rewrite (H y (or_introl eq_refl)).
  destruct (Qle_bool (c2 x y) 0); [reflexivity |].
  f_equal. apply IH. intros z Hz. apply H. right. exact Hz.
Qed.

(** Two comparators that agree in sign on the elements sort alike. *)
Lemma sort_ext (B : Type) (c1 c2 : B -> B -> Q) (l : list B) :
  (forall x y, In x l -> In y l -> Qle_bool (c1 x y) 0 = Qle_bool (c2 x y) 0) ->
  sort c1 l = sort c2 l.
Proof.
  induction l as [| x rest IH]; intro H; [reflexivity |].
  cbn [sort fold_right]. fold (sort c1 rest). fold (sort c2 rest).
  rewrite IH by (intros a b Ha Hb; apply H; right; assumption).
  apply insert_ext. intros y Hy.
  apply H; [left; reflexivity | right].
  apply (Permutation_in _ (sort_Permutation _ c2 rest) Hy).
Qed.

Lemma Qle_bool_proper (x y : Q) : x == y -> Qle_bool x 0 = Qle_bool y 0.
Proof.
  intro E. destruct (Qle_bool y 0) eqn:Hy.
  - apply Qle_bool_iff. apply Qle_bool_iff in Hy. rewrite E. exact Hy.
  - destruct (Qle_bool x 0) eqn:Hx; [| reflexivity].
    apply Qle_bool_iff in Hx. rewrite E in Hx. apply Qle_bool_iff in Hx.
    rewrite Hx in Hy. discriminate Hy.
Qed.

(** X15: as long as no available candidate has an approved bonus, the
    cost-effective team is the high-performance team. *)
Theorem selectCostEffectiveTeam_without_bonuses
  (userCapabilities : list candidate) (requiredRoles : list string)
  (teamSize : nat) (budget : option Q) :
  (forall u, In u userCapabilities -> available u = true -> bonuses u = []) ->
  selectCostEffectiveTeam userCapabilities requiredRoles teamSize budget
  = selectHighPerformanceTeam userCapabilities requiredRoles teamSize.
Proof.
  intro H. unfold selectCostEffectiveTeam, selectHighPerformanceTeam.
  f_equal. apply sort_ext. intros a b Ha Hb.
  apply filter_In in Ha, Hb. destruct Ha as [Ha Fa]. destruct Hb as [Hb Fb].
  apply Qle_bool_proper. unfold byScore. cbv zeta.
  unfold bonus_of. rewrite (H a Ha Fa), (H b Hb Fb).
  unfold averageBonus. cbn [length Nat.ltb Nat.leb]. field.
Qed.

Lemma selectCostEffectiveTeam_without_bonuses_example :
  ids (selectCostEffectiveTeam staff_without_bonuses [] 3 None)
  = ["dung"; "an"; "em"]%string /\
  ids (selectHighPerformanceTeam staff_without_bonuses [] 3)
  = ["dung"; "an"; "em"]%string.
Proof.
  rewrite (selectCostEffectiveTeam_without_bonuses staff_without_bonuses [] 3 None).
  - split; reflexivity.
  - intros u Hu Ha. cbn in Hu.
    destruct Hu as [<- | [<- | [<- | [<- | [<- | []]]]]];
      first [reflexivity | discriminate Ha].
Defined.

Lemma Number_le (a b : nat) : (a <= b)%nat -> Number a <= Number b.
Proof. intro H. unfold Number. rewrite <- Zle_Qle. lia. Qed.

Lemma Number_inj (a b : nat) : Number a == Number b -> a = b.
Proof.
  unfold Number, Qeq. cbn [Qnum Qden inject_Z]. lia.
Qed.

Lemma nodup_length_le (l : list (option string)) :
  (length (nodup key_eq_dec l) <= length l)%nat.
Proof.
  induction l as [| x rest IH]; [apply le_n |].
  cbn [nodup]. destruct (in_dec key_eq_dec x rest); cbn [length]; lia.
Qed.

Lemma Set_size_bounds (x : option string) (rest : list (option string)) :
  (1 <= Set_size (x :: rest) <= length (x :: rest))%nat.
Proof.
  unfold Set_size. split; [| apply nodup_length_le].
  assert (H : In x (nodup key_eq_dec (x :: rest)))
    by (apply nodup_In; left; reflexivity).
  destruct (nodup key_eq_dec (x :: rest)); [contradiction | cbn; lia].
Qed.

Lemma Set_size_full_iff (l : list (option string)) :
  Set_size l = length l <-> NoDup l.
Proof.
  unfold Set_size. split.
  - induction l as [| x rest IH]; intro H; [constructor |].
    cbn [nodup] in H. destruct (in_dec key_eq_dec x rest) as [Hin | Hout].
    + assert (B := nodup_length_le rest). cbn [length] in H. lia.
    + cbn [length] in H. constructor; [exact Hout | apply IH; lia].
  - intro H. rewrite (nodup_fixed_point key_eq_dec H). reflexivity.
Qed.

(** X16: the diversity of a non-empty team lies between [1 / size] and 1,
    and is 1 exactly when all departments differ and all positions differ;
    an empty team has diversity 0. *)
Theorem calculateDiversityScore_bounds (m : candidate) (others : list candidate) :
  let members := m :: others in
  1 / Number (length members) <= calculateDiversityScore members /\
  calculateDiversityScore members <= 1 /\
  (calculateDiversityScore members == 1 <->
   NoDup (map (fun u => department (user u)) members) /\
   NoDup (map (fun u => position (user u)) members)) /\
  calculateDiversityScore [] = 0.
Proof.
  cbv zeta. unfold calculateDiversityScore.
  cbn [length Nat.eqb].
  set (ds := map (fun u => department (user u)) (m :: others)).
  set (ps := map (fun u => position (user u)) (m :: others)).
  assert (Ld : length ds = S (length others)) by (unfold ds; rewrite length_map; reflexivity).
  assert (Lp : length ps = S (length others)) by (unfold ps; rewrite length_map; reflexivity).
  assert (Bd : (1 <= Set_size ds <= S (length others))%nat)
    by (rewrite <- Ld; apply Set_size_bounds).
  assert (Bp : (1 <= Set_size ps <= S (length others))%nat)
    by (rewrite <- Lp; apply Set_size_bounds).
  set (n := Number (S (length others))).
  assert (Hn : 0 < n).
  { unfold n, Number. replace 0 with (inject_Z 0) by reflexivity.
    rewrite <- Zlt_Qlt. lia. }
  assert (Hz : ~ n == 0) by (intro Hz; rewrite Hz in Hn; apply (Qlt_irrefl _ Hn)).
  assert (Q1 : forall k : nat, (1 <= k <= S (length others))%nat ->
                 1 / n <= Number k / n /\ Number k / n <= 1 /\
                 (Number k / n == 1 -> k = S (length others))).
  { intros k [Hk1 Hk2].
    assert (A1 : Number 1 <= Number k) by (apply Number_le, Hk1).
    assert (A2 : Number k <= n) by (apply Number_le, Hk2).
    change (Number 1) with 1 in A1.
    split; [| split].
    - apply Qle_shift_div_l; [exact Hn |].
      setoid_replace (1 / n * n) with 1 by (field; exact Hz). exact A1.
    - apply Qle_shift_div_r; [exact Hn |]. lra.
    - intro E. apply Number_inj. fold n.
      setoid_replace (Number k) with (Number k / n * n) by (field; exact Hz).
      rewrite E. ring. }
  destruct (Q1 _ Bd) as (d1 & d2 & d3). destruct (Q1 _ Bp) as (p1 & p2 & p3).
  set (a := Number (Set_size ds) / n) in *.
  set (b := Number (Set_size ps) / n) in *.
  set (c := 1 / n) in *.
  split; [lra |]. split; [lra |]. split; [| reflexivity].
  split.
  - intro E. split.
    + apply Set_size_full_iff. rewrite Ld. apply d3. lra.
    + apply Set_size_full_iff. rewrite Lp. apply p3. lra.
  - intros [Nd Np].
    apply Set_size_full_iff in Nd, Np.
    unfold a, b. rewrite Nd, Np, Ld, Lp. fold n. field. exact Hz.
Qed.

Lemma filter_none (B : Type) (f : B -> bool) (l : list B) :
  (forall x, In x l -> f x = false) -> filter f l = [].
Proof.
  induction l as [| x rest IH]; intro H; [reflexivity |].
  cbn [filter]. rewrite (H x (or_introl eq_refl)).
  apply IH. intros y Hy. apply H. right. exact Hy.
Qed.

(** X17: when no candidate is available (or there is none), all three
    strategies give the empty team with score 0, and the recommended
    entry is the balanced one. *)
Theorem recommendedTeam_nobody_available (userCapabilities : list candidate)
  (requiredRoles : list string) (teamSize : nat) (budget : option Q) :
  (forall u, In u userCapabilities -> available u = false) ->
  teamRecommendations userCapabilities requiredRoles teamSize budget
  = [ mkRecommendation balanced [] 0;
      mkRecommendation high_performance [] 0;
      mkRecommendation cost_effective [] 0 ] /\
  recommendedTeam userCapabilities requiredRoles teamSize budget
  = Some (mkRecommendation balanced [] 0).
Proof.
  intro H.
  assert (E0 : filter (fun u => isAvailable (availability u)) userCapabilities = [])
    by (apply filter_none; exact H).
  assert (E1 : selectBalancedTeam userCapabilities requiredRoles teamSize = []).
  { assert (M := selectBalancedTeam_members userCapabilities requiredRoles teamSize).
    destruct (selectBalancedTeam userCapabilities requiredRoles teamSize) as [| u rest];
      [reflexivity |].
    inversion M as [| ? ? [Hin Ha] _]; subst.
    rewrite (H u Hin) in Ha. discriminate Ha. }
  assert (E2 : selectHighPerformanceTeam userCapabilities requiredRoles teamSize = []).
  { unfold selectHighPerformanceTeam. rewrite E0. cbn. apply firstn_nil. }
  assert (E3 : selectCostEffectiveTeam userCapabilities requiredRoles teamSize budget = []).
  { unfold selectCostEffectiveTeam. rewrite E0. cbn. apply firstn_nil. }
  assert (E : teamRecommendations userCapabilities requiredRoles teamSize budget
              = [ mkRecommendation balanced [] 0;
                  mkRecommendation high_performance [] 0;
                  mkRecommendation cost_effective [] 0 ]).
  { unfold teamRecommendations, strategies. cbv zeta.
    rewrite E1, E2, E3. reflexivity. }
  split; [exact E |].
  unfold recommendedTeam. rewrite E. reflexivity.
Qed.

Lemma recommendedTeam_nobody_available_example :
  recommendedTeam busy_staff ["developer"%string] 5 None
  = Some (mkRecommendation balanced [] 0) /\
  recommendedTeam [] [] 5 None = Some (mkRecommendation balanced [] 0).
Proof.
  split.
  - apply (recommendedTeam_nobody_available busy_staff).
    intros u Hu. cbn in Hu. destruct Hu as [<- | [<- | []]]; reflexivity.
  - apply (recommendedTeam_nobody_available []). intros u [].
Defined.

(** X18: the handler always lists the three strategies, each once, in
    descending order of score, and neither the required roles nor the
    budget of the request changes the list. *)
Theorem teamRecommendations_ranked (userCapabilities : list candidate)
  (requiredRoles : list string) (teamSize : nat) (budget : option Q) :
  let listed :=
    teamRecommendations userCapabilities requiredRoles teamSize budget in
  Permutation (map strategy listed) [balanced; high_performance; cost_effective] /\
  StronglySorted (descending score) listed /\
  Forall (fun r => team r = team_of (strategy r) userCapabilities [] teamSize None
                   /\ score r = calculateTeamScore (team r)) listed /\
  listed = teamRecommendations userCapabilities [] teamSize None.
Proof.
  cbv zeta.
  assert (K : forall a b : recommendation, score b - score a == score b - score a)
    by (intros; reflexivity).
  assert (P := sort_Permutation _ (fun a b => score b - score a)
                 (strategies userCapabilities requiredRoles teamSize budget)).
  fold (teamRecommendations userCapabilities requiredRoles teamSize budget) in P.
  split; [| split; [| split]].
  - apply (Permutation_map strategy) in P. exact P.
  - apply (sort_sorted _ score _ K).
  - apply (Permutation_Forall (Permutation_sym P)).
    apply (strategies_entries userCapabilities requiredRoles teamSize budget).
  - reflexivity.
Qed.

End Recommendation.

(** ** KPI helpers *)

Section KpiFacts.
Import Kpi.

(** The four levels and their score intervals. *)
Lemma getCapabilityLevel_cases (s : Q) :
  (8.5 <= s /\ getCapabilityLevel s = "expert"%string) \/
  (7.5 <= s /\ s < 8.5 /\ getCapabilityLevel s = "senior"%string) \/
  (6.5 <= s /\ s < 7.5 /\ getCapabilityLevel s = "intermediate"%string) \/
  (s < 6.5 /\ getCapabilityLevel s = "junior"%string).
Proof.
  unfold getCapabilityLevel.
  destruct (Qle_bool 8.5 s) eqn:E1.
  { left. apply Qle_bool_iff in E1. auto. }
  assert (H1 : s < 8.5).
  { apply Qnot_le_lt. intro H. apply Qle_bool_iff in H. rewrite H in E1. discriminate. }
  destruct (Qle_bool 7.5 s) eqn:E2.
  { right. left. apply Qle_bool_iff in E2. auto. }
  assert (H2 : s < 7.5).
  { apply Qnot_le_lt. intro H. apply Qle_bool_iff in H. rewrite H in E2. discriminate. }
  destruct (Qle_bool 6.5 s) eqn:E3.
  { right. right. left. apply Qle_bool_iff in E3. auto. }
  right. right. right. split; [| reflexivity].
  apply Qnot_le_lt. intro H. apply Qle_bool_iff in H. rewrite H in E3. discriminate.
Qed.



Lemma shape_scale_targets (multiplier : Q) (t : kpi_table) :
  shape (scale_targets multiplier t) = shape t.
Proof.
  unfold shape, scale_targets. rewrite map_map.
  apply map_ext. intros [name ks]. cbn [fst snd]. f_equal.
  rewrite map_map. apply map_ext. intros [k v]. reflexivity.
Qed.



Lemma weights_normalised_shape (t1 t2 : kpi_table) :
  shape t1 = shape t2 -> weights_normalised t1 -> weights_normalised t2.
Proof.
  unfold weights_normalised, shape. revert t2.
  induction t1 as [| c1 r1 IH]; intros [| c2 r2] E H; try discriminate E;
    [constructor |].
  cbn [map] in E. injection E as _ Ew Er.
  inversion H as [| ? ? H1 Hr]; subst. constructor; [| apply IH; assumption].
  apply (f_equal (map snd)) in Ew. rewrite !map_map in Ew. cbn [snd] in Ew.
  rewrite <- Ew. exact H1.
Qed.

Lemma generateKPITemplates_cases (projectType complexity : string) :
  generateKPITemplates projectType complexity
  = generateKPITemplates "development" complexity \/
  generateKPITemplates projectType complexity
  = generateKPITemplates "design" complexity \/
  generateKPITemplates projectType complexity
  = generateKPITemplates "marketing" complexity.
Proof.
  unfold generateKPITemplates, get, templates. cbn [find fst snd].
  destruct (String.eqb "development" projectType); [left; reflexivity |].
  destruct (String.eqb "design" projectType); [right; left; reflexivity |].
  destruct (String.eqb "marketing" projectType); [right; right; reflexivity |].
  left. reflexivity.
Qed.

(** X21: in every KPI table the helpers produce, for any project type,
    complexity, member score, level and priority, the weights of each
    category add up to 1. *)
Theorem kpi_weights_normalised (projectType complexity level priority : string)
  (avgScore : Q) :
  weights_normalised
    (adjustKPIsByCapability (generateKPITemplates projectType complexity) avgScore) /\
  weights_normalised (adjustKPIsByLevel baseKPIs level priority) /\
  weights_normalised (generateProjectKPIs complexity).
Proof.
  split; [| split].
  - apply (weights_normalised_shape (generateKPITemplates projectType complexity));
      [symmetry; apply shape_scale_targets |].
    destruct (generateKPITemplates_cases projectType complexity) as [-> | [-> | ->]];
      repeat constructor.
  - apply (weights_normalised_shape baseKPIs);
      [symmetry; apply shape_scale_targets |].
    repeat constructor.
  - repeat constructor.
Qed.



Lemma Number_S (n : nat) : Ai.Number (S n) == Ai.Number n + 1.
Proof.
  unfold Ai.Number. rewrite Nat2Z.inj_succ. unfold Z.succ.
  rewrite inject_Z_plus. reflexivity.
Qed.

Lemma Number_nonneg (n : nat) : 0 <= Ai.Number n.
Proof.
  unfold Ai.Number. replace 0 with (inject_Z 0) by reflexivity.
  rewrite <- Zle_Qle. lia.
Qed.

(** A sum of [n] numbers between [lo] and [hi] is between [n * lo] and
    [n * hi]. *)
Lemma Qsum_bounds (lo hi : Q) (l : list Q) :
  Forall (fun x => lo <= x /\ x <= hi) l ->
  Ai.Number (length l) * lo <= Ai.Qsum l /\
  Ai.Qsum l <= Ai.Number (length l) * hi.
Proof.
  induction 1 as [| x rest [Hlo Hhi] _ [IHlo IHhi]].
  - cbn. split; discriminate.
  - cbn [length]. unfold Ai.Qsum in *. cbn [fold_right].
    rewrite Number_S. split; lra.
Qed.

Lemma mean_bounds (lo hi : Q) (l : list Q) :
  l <> [] ->
  Forall (fun y => lo <= y /\ y <= hi) l ->
  lo <= Ai.Qsum l / Ai.Number (length l) /\
  Ai.Qsum l / Ai.Number (length l) <= hi.
Proof.
  intros NE H. destruct (Qsum_bounds lo hi _ H) as [Hlo Hhi].
  set (n := Ai.Number (length l)) in *.
  assert (Hn : 0 < n).
  { unfold n. destruct l as [| x rest]; [contradiction |].
    cbn [length]. rewrite Number_S.
    assert (B := Number_nonneg (length rest)). lra. }
  split.
  - apply Qle_shift_div_l; [exact Hn | lra].
  - apply Qle_shift_div_r; [exact Hn | lra].
Qed.

(** The mean computed by a [reduce] from 0 lies where the terms lie. *)
Lemma reduce_mean_bounds (B : Type) (f : B -> Q) (lo hi : Q) (l : list B) :
  l <> [] ->
  Forall (fun x => lo <= f x /\ f x <= hi) l ->
  lo <= fold_left (fun sum x => sum + f x) l 0 / Ai.Number (length l) /\
  fold_left (fun sum x => sum + f x) l 0 / Ai.Number (length l) <= hi.
Proof.
  intros NE H.
  assert (E := fold_left_Qsum _ f l 0).
  assert (F : Forall (fun y => lo <= y /\ y <= hi) (map f l))
    by (apply Forall_map; exact H).
  assert (NE' : map f l <> []) by (destruct l; [contradiction | discriminate]).
  destruct (mean_bounds lo hi (map f l) NE' F) as [M1 M2].
  rewrite length_map in M1, M2.
  setoid_replace (fold_left (fun sum x => sum + f x) l 0) with (Ai.Qsum (map f l))
    by (rewrite E; ring).
  split; assumption.
Qed.


(** The mean of a non-empty team lies where the members' means lie. *)
Lemma teamAverage_bounds (lo hi : Q) (m : member_t) (others : list member_t) :
  Forall (fun x => lo <= avgScore_of x /\ avgScore_of x <= hi) (m :: others) ->
  lo <= teamAverage (m :: others) /\ teamAverage (m :: others) <= hi.
Proof.
  intro H. unfold teamAverage.
  apply (reduce_mean_bounds _ avgScore_of lo hi (m :: others));
    [discriminate | exact H].
Qed.




Lemma bounds_exist (B : Type) (f : B -> Q) (l : list B) :
  exists lo hi : Q, Forall (fun x => lo <= f x /\ f x <= hi) l.
Proof.
  induction l as [| x rest (lo & hi & IH)].
  - exists 0, 0. constructor.
  - exists (Qmin lo (f x)), (Qmax hi (f x)). constructor.
    + split; [apply Q.le_min_r | apply Q.le_max_r].
    + apply Forall_impl with (2 := IH). intros y [H1 H2]. split.
      * apply (Qle_trans _ lo); [apply Q.le_min_l | exact H1].
      * apply (Qle_trans _ hi); [exact H2 | apply Q.le_max_l].
Qed.

Lemma teamAverage_le (hi : Q) (m : member_t) (others : list member_t) :
  Forall (fun x => avgScore_of x <= hi) (m :: others) ->
  teamAverage (m :: others) <= hi.
Proof.
  intro H. destruct (bounds_exist _ avgScore_of (m :: others)) as (lo & hi' & B).
  apply (teamAverage_bounds lo hi m others).
  rewrite Forall_forall in *. intros x Hx. split; [apply (B x Hx) | apply (H x Hx)].
Qed.

Lemma teamAverage_ge (lo : Q) (m : member_t) (others : list member_t) :
  Forall (fun x => lo <= avgScore_of x) (m :: others) ->
  lo <= teamAverage (m :: others).
Proof.
  intro H. destruct (bounds_exist _ avgScore_of (m :: others)) as (lo' & hi & B).
  apply (teamAverage_bounds lo hi m others).
  rewrite Forall_forall in *. intros x Hx. split; [apply (H x Hx) | apply (B x Hx)].
Qed.

Lemma filter_all (B : Type) (f : B -> bool) (l : list B) :
  Forall (fun x => f x = true) l -> filter f l = l.
Proof.
  induction 1 as [| x rest Hx _ IH]; [reflexivity |].
  cbn [filter]. rewrite Hx, IH. reflexivity.
Qed.

Lemma Qle_bool_false (x y : Q) : y < x -> Qle_bool x y = false.
Proof.
  intro H. destruct (Qle_bool x y) eqn:E; [| reflexivity].
  apply Qle_bool_iff in E. exfalso. apply (Qlt_not_le _ _ H E).
Qed.

(** X24: a team in which every member is at junior level (newcomers
    without evaluations included) is always reported with low performance
    and too many juniors, and, for a very complex project only, with
    insufficient experience: exactly these risks, in this order. *)
Theorem identifyRiskFactors_all_junior (m : member_t) (others : list member_t)
  (projectType complexity : string) :
  Forall (fun x => getCapabilityLevel (avgScore_of x) = "junior"%string)
    (m :: others) ->
  identifyRiskFactors (m :: others) projectType complexity
  = ["Hiệu suất team thấp"; "Quá nhiều junior trong team"]%string
    ++ (if String.eqb complexity "very_complex"
        then ["Dự án phức tạp với team chưa đủ kinh nghiệm"%string]
        else []).
Proof.
  intro H.
  assert (Hs : Forall (fun x => avgScore_of x <= 6.5) (m :: others)).
  { apply Forall_impl with (2 := H). intros x Hx.
    destruct (getCapabilityLevel_cases (avgScore_of x))
      as [[_ E] | [(_ & _ & E) | [(_ & _ & E) | [B _]]]];
      try (rewrite E in Hx; discriminate Hx).
    apply Qlt_le_weak, B. }
  assert (A := teamAverage_le 6.5 m others Hs).
  assert (J : filter (fun x => String.eqb (getCapabilityLevel (avgScore_of x)) "junior")
                (m :: others) = m :: others).
  { apply filter_all. apply Forall_impl with (2 := H).
    intros x Hx. rewrite Hx. reflexivity. }
  unfold identifyRiskFactors. cbv zeta. rewrite J.
  cbn [length Nat.eqb Nat.ltb Nat.leb andb].
  assert (N := Number_nonneg (length others)).
  assert (NS := Number_S (length others)).
  rewrite (Qle_bool_false 7.0 _) by lra.
  rewrite (Qle_bool_false 8.0 _) by lra.
  rewrite (Qle_bool_false (Ai.Number (S (length others))) _) by lra.
  cbn [negb]. rewrite andb_true_r. reflexivity.
Qed.

Lemma identifyRiskFactors_newcomers :
  identifyRiskFactors [newcomer "binh"; newcomer "hoa"] "development" "moderate"
  = ["Hiệu suất team thấp"; "Quá nhiều junior trong team"]%string.
Proof.
  apply (identifyRiskFactors_all_junior (newcomer "binh") [newcomer "hoa"]
           "development" "moderate").
  repeat constructor.
Defined.

(** X25: a team whose members all have a mean score of at least 8 is
    reported without any risk, whatever the project. *)
Theorem identifyRiskFactors_strong_team (members : list member_t)
  (projectType complexity : string) :
  Forall (fun x => 8 <= avgScore_of x) members ->
  identifyRiskFactors members projectType complexity = [].
Proof.
  intro H. destruct members as [| m others]; [reflexivity |].
  assert (A := teamAverage_ge 8 m others H).
  assert (J : filter (fun x => String.eqb (getCapabilityLevel (avgScore_of x)) "junior")
                (m :: others) = []).
  { apply filter_none. rewrite Forall_forall in H. intros x Hx.
    specialize (H x Hx).
    destruct (getCapabilityLevel_cases (avgScore_of x))
      as [[_ ->] | [(_ & _ & ->) | [(_ & _ & ->) | [B _]]]];
      try reflexivity.
    exfalso. lra. }
  unfold identifyRiskFactors. cbv zeta. rewrite J.
  cbn [length Nat.eqb Nat.ltb Nat.leb andb].
  assert (N := Number_nonneg (length others)).
  assert (NS := Number_S (length others)).
  assert (E1 : Qle_bool 7.0 (teamAverage (m :: others)) = true)
    by (apply Qle_bool_iff; lra).
  assert (E2 : Qle_bool 8.0 (teamAverage (m :: others)) = true)
    by (apply Qle_bool_iff; lra).
  assert (E3 : Qle_bool (Ai.Number 0) (Ai.Number (S (length others)) * 0.5) = true).
  { apply Qle_bool_iff. change (Ai.Number 0) with 0. lra. }
  rewrite E1, E2, E3. cbn [negb]. rewrite andb_false_r. reflexivity.
Qed.

Lemma identifyRiskFactors_veterans :
  identifyRiskFactors [veteran "an"; veteran "chi"] "design" "very_complex" = [].
Proof.
  apply (identifyRiskFactors_strong_team [veteran "an"; veteran "chi"]).
  repeat constructor; discriminate.
Defined.

End KpiFacts.

(** ** Commission: the period string *)

Section PeriodString.
Import Period.
Local Open Scope string_scope.







End PeriodString.
